(** * SerialMidi: the MIDI 1.0 serial codec of serial-midi.h / serial-midi.cpp

    A shallow embedding of the [SerialMidi] class: the transmit side with its
    running-status elision and the byte-at-a-time receive parser.  The object's
    members are a record, the member functions are computations of a small
    state monad over the object and the log of delegate invocations, and the
    serial port is a pair of byte queues. *)

From Stdlib Require Import ZArith List Bool Lia.
From Stdlib Require String Ascii.
Import ListNotations.
Local Open Scope Z_scope.

(** ** Fixed-width integers

    [uint8_t], [uint16_t] and [int16_t] values are integers of [Z]; a
    conversion to the unsigned types wraps around. *)

Definition u8 (z : Z) : Z := z mod 256.
Definition u16 (z : Z) : Z := z mod 65536.

(** ** The defines of serial-midi.h *)

Definition CHANNEL_VOICE_MASK : Z := 0x80.
Definition SYSTEM_TUNE_REQUEST : Z := 0xF6.

Definition C_NOTE_ON : Z := 0x90.
Definition C_NOTE_OFF : Z := 0x80.
Definition C_POLYPHONIC_AFTERTOUCH : Z := 0xA0.
Definition C_PITCH_WHEEL : Z := 0xE0.
Definition C_CONTROL_CHANGE : Z := 0xB0.
Definition C_PROGRAM_CHANGE : Z := 0xC0.
Definition C_CHANNEL_AFTERTOUCH : Z := 0xD0.

Definition RT_TIMING_CLOCK : Z := 0xF8.
Definition RT_START : Z := 0xFA.
Definition RT_CONTINUE : Z := 0xFB.
Definition RT_STOP : Z := 0xFC.
Definition RT_ACTIVE_SENSING : Z := 0xFE.
Definition RT_RESET : Z := 0xFF.

(** The two members of [enum midi_control_change] the class itself uses. *)
Definition CTL_MSB_MODWHEEL : Z := 0x01.
Definition CTL_LSB_MODWHEEL : Z := 0x21.

(** ** The serial port *)

(** Modelled from the spec: [BufferedSerial] is the board library's class,
    not part of the sources.  It is the byte transport of the spec's
    external interfaces: a non-blocking read of one byte, and a
    fire-and-forget write of a byte sequence. *)

Record BufferedSerial : Type := mkSerial {
  rx_fifo : list Z;   (* received, not yet read; oldest first *)
  tx_line : list Z    (* everything written so far; oldest first *)
}.

(** ** The object *)

Inductive midi_state_machine : Type :=
| RESET
| RX_1_SYSEX_BYTE
| HANDLE_SYSEX
| DISPATCH
| RX_DATA_BYTE
| RX_1_DATA_BYTE
| RX_2_DATA_BYTE.

Record SerialMidi : Type := mkSerialMidi {
  serial_port : BufferedSerial;
  global_running_status_tx : Z;
  global_running_status_rx : Z;
  global_3rd_byte_flag : Z;
  global_midi_c2 : Z;
  global_midi_c3 : Z;
  global_midi_state : midi_state_machine
}.

(** The five delegates are function pointers handed over at construction.
    An invocation is recorded, with its arguments, in a log. *)

Inductive delegate_call : Type :=
| midi_note_on_delegate (note velocity : Z)
| realtime_handler_delegate (msg : Z)
| midi_note_off_delegate (note velocity : Z)
| midi_control_change_delegate (controller value : Z)
| midi_pitchwheel_delegate (valueLSB valueMSB : Z).

Record world : Type := mkWorld {
  this : SerialMidi;
  invoked : list delegate_call   (* oldest first *)
}.

(** ** A state monad for the member functions *)

Definition M (A : Type) : Type := world -> A * world.

Definition ret {A} (a : A) : M A := fun w => (a, w).
Definition bind {A B} (m : M A) (k : A -> M B) : M B :=
  fun w => let (a, w') := m w in k a w'.

Declare Scope midi_scope.
Delimit Scope midi_scope with midi.
Notation "x <- c1 ;; c2" := (bind c1 (fun x => c2))
  (at level 61, c1 at next level, right associativity) : midi_scope.
Notation "c1 ;; c2" := (bind c1 (fun _ => c2))
  (at level 61, right associativity) : midi_scope.
Local Open Scope midi_scope.

Definition exec {A} (m : M A) (w : world) : world := snd (m w).

Definition get {A} (field : SerialMidi -> A) : M A :=
  fun w => (field (this w), w).

Definition modify (f : SerialMidi -> SerialMidi) : M unit :=
  fun w => (tt, mkWorld (f (this w)) (invoked w)).

(** Assignments to the [uint8_t] members. *)

Definition set_running_status_tx (v : Z) : M unit :=
  modify (fun o => mkSerialMidi (serial_port o) (u8 v)
    (global_running_status_rx o) (global_3rd_byte_flag o)
    (global_midi_c2 o) (global_midi_c3 o) (global_midi_state o)).

Definition set_running_status_rx (v : Z) : M unit :=
  modify (fun o => mkSerialMidi (serial_port o) (global_running_status_tx o)
    (u8 v) (global_3rd_byte_flag o)
    (global_midi_c2 o) (global_midi_c3 o) (global_midi_state o)).

Definition set_3rd_byte_flag (v : Z) : M unit :=
  modify (fun o => mkSerialMidi (serial_port o) (global_running_status_tx o)
    (global_running_status_rx o) (u8 v)
    (global_midi_c2 o) (global_midi_c3 o) (global_midi_state o)).

Definition set_midi_c2 (v : Z) : M unit :=
  modify (fun o => mkSerialMidi (serial_port o) (global_running_status_tx o)
    (global_running_status_rx o) (global_3rd_byte_flag o)
    (u8 v) (global_midi_c3 o) (global_midi_state o)).

Definition set_midi_c3 (v : Z) : M unit :=
  modify (fun o => mkSerialMidi (serial_port o) (global_running_status_tx o)
    (global_running_status_rx o) (global_3rd_byte_flag o)
    (global_midi_c2 o) (u8 v) (global_midi_state o)).

Definition set_serial_port (p : BufferedSerial) : M unit :=
  modify (fun o => mkSerialMidi p (global_running_status_tx o)
    (global_running_status_rx o) (global_3rd_byte_flag o)
    (global_midi_c2 o) (global_midi_c3 o) (global_midi_state o)).

(** Modelled from the spec: [serial_port.write(p, n)] puts the first [n]
    bytes at [p] on the line, in order. *)
Definition serial_port_write (p : list Z) (n : nat) : M unit :=
  port <- get serial_port ;;
  set_serial_port (mkSerial (rx_fifo port) (tx_line port ++ firstn n p)).

(** Modelled from the spec: [serial_port.read(&c, 1)] takes the oldest byte
    not yet read.  [None] stands for the return value 0, no byte available,
    and [Some c] for one byte read into the [uint8_t c]. *)
Definition serial_port_read : M (option Z) :=
  port <- get serial_port ;;
  match rx_fifo port with
  | [] => ret None
  | c :: rest =>
      set_serial_port (mkSerial rest (tx_line port)) ;;
      ret (Some (u8 c))
  end.

(** Calling through a delegate. *)
Definition invoke (c : delegate_call) : M unit :=
  fun w => (tt, mkWorld (this w) (invoked w ++ [c])).

(** ** Construction

    The constructor assigns the delegates, opens the port and sets the five
    receive-side members.  It has no assignment to
    [global_running_status_tx]: that member keeps whatever its storage held,
    which is the argument [storage_tx] here. *)

Definition construct (storage_tx : Z) : world :=
  mkWorld
    (mkSerialMidi (mkSerial [] []) (u8 storage_tx) 0 0 0 0 RESET)
    [].

(** ** Transmit side *)

Definition NoteON (channel key velocity : Z) : M unit :=
  let buf := [u8 (Z.lor C_NOTE_ON (u8 channel)); u8 key; u8 velocity] in
  tx <- get global_running_status_tx ;;
  if tx =? nth 0 buf 0 then
    serial_port_write (skipn 1 buf) 2
  else
    serial_port_write buf 3 ;;
    set_running_status_tx (nth 0 buf 0).

Definition NoteOFF (channel key velocity : Z) : M unit :=
  let buf := [u8 (Z.lor C_NOTE_OFF (u8 channel)); u8 key; u8 velocity] in
  tx <- get global_running_status_tx ;;
  if tx =? nth 0 buf 0 then
    serial_port_write (skipn 1 buf) 2
  else
    serial_port_write buf 3 ;;
    set_running_status_tx (nth 0 buf 0).

Definition ControlChange (channel controller val : Z) : M unit :=
  let buf := [u8 (Z.lor C_CONTROL_CHANGE (u8 channel)); u8 controller; u8 val] in
  tx <- get global_running_status_tx ;;
  if tx =? nth 0 buf 0 then
    serial_port_write (skipn 1 buf) 2
  else
    serial_port_write buf 3 ;;
    set_running_status_tx (nth 0 buf 0).

Definition ChannelAfterTouch (channel val : Z) : M unit :=
  let buf := [u8 (Z.lor C_CHANNEL_AFTERTOUCH (u8 channel)); u8 val] in
  tx <- get global_running_status_tx ;;
  if tx =? nth 0 buf 0 then
    serial_port_write (skipn 1 buf) 1
  else
    serial_port_write buf 2 ;;
    set_running_status_tx (nth 0 buf 0).

(** [ModWheel(uint8_t, uint16_t)]: LSB controller first, then MSB. *)
Definition ModWheel (channel val : Z) : M unit :=
  let val := u16 val in
  ControlChange channel CTL_LSB_MODWHEEL
    (Z.land (Z.lnot CHANNEL_VOICE_MASK) val) ;;
  ControlChange channel CTL_MSB_MODWHEEL
    (Z.land (Z.lnot CHANNEL_VOICE_MASK) (Z.shiftr val 7)).

(** [ModWheel(uint8_t, uint8_t)]: the MSB controller only. *)
Definition ModWheel_msb (channel val : Z) : M unit :=
  let val := u8 val in
  ControlChange channel CTL_MSB_MODWHEEL
    (Z.land (Z.lnot CHANNEL_VOICE_MASK) val).

(** [ModWheel(uint8_t, int)], defined in the header. *)
Definition ModWheel_int (channel val : Z) : M unit :=
  ModWheel_msb channel (u8 val).

(** [PitchWheel(uint8_t, uint16_t)]: unsigned 14-bit input. *)
Definition PitchWheel (channel val : Z) : M unit :=
  let val := u16 val in
  let buf := [u8 (Z.lor C_PITCH_WHEEL (u8 channel));
              u8 (Z.land val (Z.lnot CHANNEL_VOICE_MASK));
              u8 (Z.land (Z.shiftr val 7) (Z.lnot CHANNEL_VOICE_MASK))] in
  tx <- get global_running_status_tx ;;
  if tx =? nth 0 buf 0 then
    serial_port_write (skipn 1 buf) 2
  else
    serial_port_write buf 3 ;;
    set_running_status_tx (nth 0 buf 0).

(** [PitchWheel(uint8_t, int16_t)]: signed input, centre 0. *)
Definition PitchWheel_signed (channel val : Z) : M unit :=
  let pitch := u16 (val + 0x2000) in
  PitchWheel channel pitch.

Definition TimingClock : M unit := serial_port_write [RT_TIMING_CLOCK] 1.
Definition Start : M unit := serial_port_write [RT_START] 1.
Definition Continue : M unit := serial_port_write [RT_CONTINUE] 1.
Definition Stop : M unit := serial_port_write [RT_STOP] 1.
Definition Active_Sensing : M unit := serial_port_write [RT_ACTIVE_SENSING] 1.
Definition Reset : M unit := serial_port_write [RT_RESET] 1.

(** ** Receive side: the parser, one byte per call *)

Definition ReceiveParser : M unit :=
  r <- serial_port_read ;;
  match r with
  | None => ret tt
  | Some c =>
    if negb (Z.land c CHANNEL_VOICE_MASK =? 0) then
      (* bit 7 set: a status byte *)
      if 0xF8 <=? c then
        invoke (realtime_handler_delegate c)
      else
        set_running_status_rx c ;;
        set_3rd_byte_flag 0 ;;
        if c =? SYSTEM_TUNE_REQUEST then set_midi_c2 c else ret tt
    else
      (* bit 7 clear: a data byte *)
      flag <- get global_3rd_byte_flag ;;
      if flag =? 1 then
        set_3rd_byte_flag 0 ;;
        set_midi_c3 c ;;
        rx0 <- get global_running_status_rx ;;
        set_running_status_rx (Z.land rx0 0xF0) ;;
        rx <- get global_running_status_rx ;;
        c2 <- get global_midi_c2 ;;
        c3 <- get global_midi_c3 ;;
        if rx =? C_NOTE_ON then
          if c3 =? 0 then invoke (midi_note_off_delegate c2 c3)
          else invoke (midi_note_on_delegate c2 c3)
        else if rx =? C_NOTE_OFF then invoke (midi_note_off_delegate c2 c3)
        else if rx =? C_PITCH_WHEEL then invoke (midi_pitchwheel_delegate c2 c3)
        else if rx =? C_PROGRAM_CHANGE then ret tt
        else if rx =? C_POLYPHONIC_AFTERTOUCH then ret tt
        else if rx =? C_CHANNEL_AFTERTOUCH then ret tt
        else if rx =? C_CONTROL_CHANGE then
          invoke (midi_control_change_delegate c2 c3)
        else ret tt
      else
        rx <- get global_running_status_rx ;;
        if rx =? 0 then ret tt
        else if rx <? 0xC0 then
          set_3rd_byte_flag 1 ;; set_midi_c2 c
        else if rx <? 0xE0 then
          set_midi_c2 c
        else if rx <? 0xF0 then
          set_3rd_byte_flag 1 ;; set_midi_c2 c
        else if 0xF0 <=? rx then
          if rx =? 0xF2 then
            set_running_status_rx 0 ;; set_3rd_byte_flag 1 ;; set_midi_c2 c
          else if 0xF0 <=? rx then
            if (rx =? 0xF3) || (rx =? 0xF3) then
              set_running_status_rx 0 ;; set_midi_c2 c
            else
              set_running_status_rx 0
          else ret tt
        else ret tt
  end.

(** ** Driving the parser *)

(** [n] calls of [ReceiveParser] in a row, as the polling loop makes them. *)
Fixpoint poll (n : nat) : M unit :=
  match n with
  | O => ret tt
  | S n' => ReceiveParser ;; poll n'
  end.

(** ** Views and updates used in the statements *)

Definition on_this (f : SerialMidi -> SerialMidi) (w : world) : world :=
  mkWorld (f (this w)) (invoked w).

Definition upd_port (p : BufferedSerial) (o : SerialMidi) : SerialMidi :=
  mkSerialMidi p (global_running_status_tx o)
    (global_running_status_rx o) (global_3rd_byte_flag o)
    (global_midi_c2 o) (global_midi_c3 o) (global_midi_state o).

Definition upd_tx (v : Z) (o : SerialMidi) : SerialMidi :=
  mkSerialMidi (serial_port o) v
    (global_running_status_rx o) (global_3rd_byte_flag o)
    (global_midi_c2 o) (global_midi_c3 o) (global_midi_state o).

(** The receive-side members all at once. *)
Definition upd_rx (rx flag c2 c3 : Z) (o : SerialMidi) : SerialMidi :=
  mkSerialMidi (serial_port o) (global_running_status_tx o)
    rx flag c2 c3 (global_midi_state o).

Definition sent (w : world) : list Z := tx_line (serial_port (this w)).
Definition unread (w : world) : list Z := rx_fifo (serial_port (this w)).

(** The world in which the port holds exactly [bytes] to be read next. *)
Definition incoming (bytes : list Z) (w : world) : world :=
  on_this (upd_port (mkSerial bytes (sent w))) w.

(** The world after [bytes] more went out on the line. *)
Definition wrote (bytes : list Z) (w : world) : world :=
  on_this (upd_port (mkSerial (unread w) (sent w ++ bytes))) w.

(** The world after one more delegate invocation. *)
Definition called (c : delegate_call) (w : world) : world :=
  mkWorld (this w) (invoked w ++ [c]).

(** What a call of [op] in [w] puts on the line. *)
Definition produced (op : M unit) (w : world) : list Z :=
  skipn (length (sent w)) (sent (exec op w)).

(** Feeding a byte sequence to the parser: the port delivers [bytes], and the
    parser is called once for each of them. *)
Definition feed (bytes : list Z) (w : world) : world :=
  exec (poll (length bytes)) (incoming bytes w).

(** The status byte of a channel-voice message. *)
Definition status_byte (family channel : Z) : Z :=
  u8 (Z.lor family (u8 channel)).

(** A data byte as the wire format has it: bit 7 clear. *)
Definition is_data (b : Z) : Prop := 0 <= b <= 127.

(** The member functions of the transmit side, as calls. *)
Inductive send_op : Type :=
| OpNoteON (channel key velocity : Z)
| OpNoteOFF (channel key velocity : Z)
| OpControlChange (channel controller val : Z)
| OpChannelAfterTouch (channel val : Z)
| OpModWheel (channel val : Z)
| OpModWheel_msb (channel val : Z)
| OpModWheel_int (channel val : Z)
| OpPitchWheel (channel val : Z)
| OpPitchWheel_signed (channel val : Z)
| OpTimingClock | OpStart | OpContinue | OpStop | OpActive_Sensing | OpReset.

Definition send (op : send_op) : M unit :=
  match op with
  | OpNoteON ch k v => NoteON ch k v
  | OpNoteOFF ch k v => NoteOFF ch k v
  | OpControlChange ch c v => ControlChange ch c v
  | OpChannelAfterTouch ch v => ChannelAfterTouch ch v
  | OpModWheel ch v => ModWheel ch v
  | OpModWheel_msb ch v => ModWheel_msb ch v
  | OpModWheel_int ch v => ModWheel_int ch v
  | OpPitchWheel ch v => PitchWheel ch v
  | OpPitchWheel_signed ch v => PitchWheel_signed ch v
  | OpTimingClock => TimingClock
  | OpStart => Start
  | OpContinue => Continue
  | OpStop => Stop
  | OpActive_Sensing => Active_Sensing
  | OpReset => Reset
  end.

(** The worlds a program can get to: a constructed object, on which member
    functions are called while bytes come in at the port. *)
Inductive reachable : world -> Prop :=
| reach_construct (storage_tx : Z) :
    reachable (construct storage_tx)
| reach_arrival (w : world) (bytes : list Z) :
    reachable w -> reachable (incoming (unread w ++ bytes) w)
| reach_send (w : world) (op : send_op) :
    reachable w -> reachable (exec (send op) w)
| reach_receive (w : world) :
    reachable w -> reachable (exec ReceiveParser w).

(** Running-status elision of one send operation: with the status byte
    already the last one sent, only the data goes out and the object is
    otherwise as before; else status and data go out and the status byte is
    remembered. *)
Definition running_status_send (op : M unit) (status : Z) (data : list Z) : Prop :=
  forall w : world,
    (global_running_status_tx (this w) = status ->
       op w = (tt, wrote data w)) /\
    (global_running_status_tx (this w) <> status ->
       op w = (tt, on_this (upd_tx status) (wrote (status :: data) w))).

(** What a send puts on the line, by the last status byte sent. *)
Definition writes (op : M unit) (status : Z) (data : list Z) : Prop :=
  forall w : world,
    produced op w =
      if global_running_status_tx (this w) =? status then data
      else status :: data.

(** Bit 7 clear, as the wire format wants it of a data byte. *)
Definition bit7_clear (b : Z) : Prop := Z.land b CHANNEL_VOICE_MASK = 0.

(** What the parser maintains of its own members: the receive running status
    is 0 or a status byte below the realtime range, and the pending-byte flag
    is 0 or 1, and 1 only under a two-data-byte channel-voice status or under
    the 0 that the 0xF2 case leaves. *)
Definition rx_inv (o : SerialMidi) : Prop :=
  let rx := global_running_status_rx o in
  let flag := global_3rd_byte_flag o in
  (rx = 0 \/ 0x80 <= rx <= 0xF7) /\
  (flag = 0 \/
   flag = 1 /\ (rx = 0 \/ 0x80 <= rx < 0xC0 \/ 0xE0 <= rx < 0xF0)).

(** ** Further vocabulary: streams, listening decoders, diagnostics *)

(** Two objects the parser cannot tell apart: the same receive running
    status and pending-byte flag, and the same stored first byte where one is
    pending. *)
Definition same_pending (o1 o2 : SerialMidi) : Prop :=
  global_running_status_rx o1 = global_running_status_rx o2 /\
  global_3rd_byte_flag o1 = global_3rd_byte_flag o2 /\
  (global_3rd_byte_flag o1 = 1 -> global_midi_c2 o1 = global_midi_c2 o2).

(** The delegate calls made while [bytes] are fed. *)
Definition delegated (bytes : list Z) (w : world) : list delegate_call :=
  skipn (length (invoked w)) (invoked (feed bytes w)).

Definition is_realtime_call (c : delegate_call) : bool :=
  match c with
  | realtime_handler_delegate _ => true
  | _ => false
  end.

(** The delegate calls a complete two-data-byte message stands for, by the
    family of its status byte. *)
Definition message_calls (family d1 d2 : Z) : list delegate_call :=
  if family =? C_NOTE_ON then
    [if d2 =? 0 then midi_note_off_delegate d1 0
     else midi_note_on_delegate d1 d2]
  else if family =? C_NOTE_OFF then [midi_note_off_delegate d1 d2]
  else if family =? C_CONTROL_CHANGE then [midi_control_change_delegate d1 d2]
  else if family =? C_PITCH_WHEEL then [midi_pitchwheel_delegate d1 d2]
  else [].

(** A stream of data-byte pairs, as they follow one status byte. *)
Fixpoint pairs_bytes (pairs : list (Z * Z)) : list Z :=
  match pairs with
  | [] => []
  | (d1, d2) :: rest => d1 :: d2 :: pairs_bytes rest
  end.

(** A state in which no data byte can reach a delegate. *)
Definition silent (o : SerialMidi) : Prop :=
  let rx := global_running_status_rx o in
  let flag := global_3rd_byte_flag o in
  (flag = 0 \/ flag = 1) /\
  (rx = 0 \/ 0xA0 <= rx <= 0xAF \/
   (flag = 0 /\ (0xC0 <= rx <= 0xDF \/ 0xF0 <= rx <= 0xF7))).

Definition data_pair (p : Z * Z) : Prop := is_data (fst p) /\ is_data (snd p).

(** A decoder [d] that follows the encoder [e]: it is between messages, and
    where the encoder would elide a status byte the decoder's running status
    is of that family. *)
Definition in_sync (e d : world) : Prop :=
  global_3rd_byte_flag (this d) = 0 /\
  (0x80 <= global_running_status_tx (this e) <= 0xEF ->
   0x80 <= global_running_status_rx (this d) <= 0xEF /\
   Z.land (global_running_status_rx (this d)) 0xF0
   = Z.land (global_running_status_tx (this e)) 0xF0).

(** A call within the wire format's ranges: channel 0..15, and data values
    0..127 where the function sends them as they are. *)
Definition valid_call (op : send_op) : Prop :=
  match op with
  | OpNoteON ch k v | OpNoteOFF ch k v | OpControlChange ch k v =>
      0 <= ch <= 15 /\ is_data k /\ is_data v
  | OpChannelAfterTouch ch v => 0 <= ch <= 15 /\ is_data v
  | OpModWheel ch _ | OpModWheel_msb ch _ | OpModWheel_int ch _
  | OpPitchWheel ch _ | OpPitchWheel_signed ch _ => 0 <= ch <= 15
  | _ => True
  end.

(** The delegate calls a listening decoder makes for one call of the
    transmit side. *)
Definition expected_calls (op : send_op) : list delegate_call :=
  match op with
  | OpNoteON _ k v =>
      [if v =? 0 then midi_note_off_delegate k 0
       else midi_note_on_delegate k v]
  | OpNoteOFF _ k v => [midi_note_off_delegate k v]
  | OpControlChange _ c v => [midi_control_change_delegate c v]
  | OpChannelAfterTouch _ _ => []
  | OpModWheel _ val =>
      [midi_control_change_delegate CTL_LSB_MODWHEEL (u16 val mod 128);
       midi_control_change_delegate CTL_MSB_MODWHEEL ((u16 val / 128) mod 128)]
  | OpModWheel_msb _ val | OpModWheel_int _ val =>
      [midi_control_change_delegate CTL_MSB_MODWHEEL (u8 val mod 128)]
  | OpPitchWheel _ val =>
      [midi_pitchwheel_delegate (u16 val mod 128) ((u16 val / 128) mod 128)]
  | OpPitchWheel_signed _ val =>
      [midi_pitchwheel_delegate (u16 (val + 0x2000) mod 128)
         ((u16 (val + 0x2000) / 128) mod 128)]
  | OpTimingClock => [realtime_handler_delegate RT_TIMING_CLOCK]
  | OpStart => [realtime_handler_delegate RT_START]
  | OpContinue => [realtime_handler_delegate RT_CONTINUE]
  | OpStop => [realtime_handler_delegate RT_STOP]
  | OpActive_Sensing => [realtime_handler_delegate RT_ACTIVE_SENSING]
  | OpReset => [realtime_handler_delegate RT_RESET]
  end.

(** A program's calls of the transmit side, one after the other. *)
Fixpoint send_all (ops : list send_op) : M unit :=
  match ops with
  | [] => ret tt
  | op :: rest => send op ;; send_all rest
  end.

(** The six realtime sends. *)
Definition realtime_ops : list send_op :=
  [OpTimingClock; OpStart; OpContinue; OpStop; OpActive_Sensing; OpReset].

(** Arguments as a consumer may rely on them: data bytes, a velocity other
    than 0 for a note-on, and a byte of the realtime range. *)
Definition well_formed_call (c : delegate_call) : Prop :=
  match c with
  | midi_note_on_delegate note velocity => is_data note /\ 1 <= velocity <= 127
  | midi_note_off_delegate d1 d2
  | midi_control_change_delegate d1 d2
  | midi_pitchwheel_delegate d1 d2 => is_data d1 /\ is_data d2
  | realtime_handler_delegate msg => 0xF8 <= msg <= 0xFF
  end.

(** ** The diagnostic text *)

Module Diagnostics.
Import Stdlib.Strings.Ascii Stdlib.Strings.String.
Local Open Scope string_scope.

(** The values of the enumerators of [midi_state_machine]. *)
Definition state_code (s : midi_state_machine) : Z :=
  match s with
  | RESET => 0
  | RX_1_SYSEX_BYTE => 1
  | HANDLE_SYSEX => 2
  | DISPATCH => 3
  | RX_DATA_BYTE => 4
  | RX_1_DATA_BYTE => 5
  | RX_2_DATA_BYTE => 6
  end.

Definition hex_digit (n : Z) : ascii :=
  match n with
  | 0 => "0" | 1 => "1" | 2 => "2" | 3 => "3"
  | 4 => "4" | 5 => "5" | 6 => "6" | 7 => "7"
  | 8 => "8" | 9 => "9" | 10 => "A" | 11 => "B"
  | 12 => "C" | 13 => "D" | 14 => "E" | _ => "F"
  end%char.

(** The conversion [%X] of [snprintf]: upper-case hexadecimal digits without
    leading zeros; [fuel] bounds the number of digits. *)
Fixpoint hex (fuel : nat) (n : Z) : string :=
  match fuel with
  | O => ""
  | S fuel' =>
      if (n <? 16)%Z then String (hex_digit n) ""
      else hex fuel' (n / 16) ++ String (hex_digit (n mod 16)) ""
  end.

Fixpoint spaces (n : nat) : string :=
  match n with
  | O => ""
  | S n' => String " "%char (spaces n')
  end.

(** A minimum field width: short output is padded with spaces on the left. *)
Definition pad_left (width : nat) (s : string) : string :=
  spaces (width - length s) ++ s.

(** [%2X] of an [unsigned int], which has at most eight digits. *)
Definition fmt_2X (v : Z) : string := pad_left 2 (hex 8 v).

(** [Text()]: the four members printed into the 64-byte buffer, of which
    [snprintf] fills at most 63 characters before the terminator. *)
Definition Text (o : SerialMidi) : string :=
  substring 0 63
    ("run_tx:" ++ fmt_2X (global_running_status_tx o) ++
     ",run_rx:" ++ fmt_2X (global_running_status_rx o) ++
     ",3rd_byte:" ++ fmt_2X (global_3rd_byte_flag o) ++
     ",state:" ++ fmt_2X (state_code (global_midi_state o))).

(** Reading a [%2X] field of a byte back. *)
Definition digit_value (c : ascii) : Z :=
  let n := Z.of_nat (nat_of_ascii c) in
  if (n <? 58)%Z then n - 48 else n - 55.

Definition read_2X (s : string) : Z :=
  match s with
  | String a (String b EmptyString) =>
      if Ascii.eqb a " " then digit_value b
      else 16 * digit_value a + digit_value b
  | _ => 0
  end.

(** A string of exactly two characters. *)
Definition two_chars (s : string) : bool :=
  match s with
  | String _ (String _ EmptyString) => true
  | _ => false
  end.

End Diagnostics.

(** The members as the [uint8_t] they are. *)
Definition byte_members (o : SerialMidi) : Prop :=
  0 <= global_running_status_tx o <= 255 /\
  0 <= global_running_status_rx o <= 255 /\
  0 <= global_3rd_byte_flag o <= 255.

(** * Properties *)

(** ** Sample runs *)

Example NoteON_first :
  produced (NoteON 0 60 100) (construct 0) = [0x90; 0x3C; 0x64].
Proof. reflexivity. Qed.

Example feed_note_off :
  invoked (feed [0x90; 0x3C; 0x00] (construct 0)) = [midi_note_off_delegate 60 0].
Proof. reflexivity. Qed.

Example feed_control_change :
  invoked (feed [0xB0; 0x07; 0x7F] (construct 0)) = [midi_control_change_delegate 7 127].
Proof. reflexivity. Qed.


(** ** Bytes and bits *)

Lemma u8_range (z : Z) : 0 <= u8 z < 256.
Proof. unfold u8. apply Z.mod_pos_bound. lia. Qed.

Lemma u8_small (z : Z) : 0 <= z < 256 -> u8 z = z.
Proof. intros H. unfold u8. apply Z.mod_small. exact H. Qed.

Lemma u8_u8 (z : Z) : u8 (u8 z) = u8 z.
Proof. apply u8_small, u8_range. Qed.

Lemma u16_small (z : Z) : 0 <= z < 65536 -> u16 z = z.
Proof. intros H. unfold u16. apply Z.mod_small. exact H. Qed.

(** Masking with a shifted mask is masking the shifted value. *)
Lemma land_shiftl_mask (x m n : Z) :
  0 <= n -> Z.land x (Z.shiftl m n) = Z.shiftl (Z.land (Z.shiftr x n) m) n.
Proof.
  intros Hn. apply Z.bits_inj'. intros k Hk.
  rewrite Z.land_spec, !Z.shiftl_spec by lia.
  destruct (Z.ltb_spec k n) as [Hlt | Hge].
  - rewrite (Z.testbit_neg_r m (k - n)) by lia.
    rewrite (Z.testbit_neg_r _ (k - n)) by lia. apply andb_false_r.
  - rewrite Z.land_spec, Z.shiftr_spec by lia.
    replace (k - n + n) with k by lia. reflexivity.
Qed.

(** Bit 7 of a byte, as the parser tests it. *)
Lemma bit7_div (c : Z) : Z.land c 0x80 = ((c / 128) mod 2) * 128.
Proof.
  replace 0x80 with (Z.shiftl (Z.ones 1) 7) at 1 by reflexivity.
  rewrite land_shiftl_mask by lia.
  rewrite Z.land_ones, Z.shiftr_div_pow2, Z.shiftl_mul_pow2 by lia.
  reflexivity.
Qed.

Lemma bit7_data (c : Z) : 0 <= c < 128 -> Z.land c 0x80 = 0.
Proof.
  intros Hc. rewrite bit7_div, Z.div_small by lia. reflexivity.
Qed.

Lemma bit7_status (c : Z) :
  128 <= c < 256 -> Z.land c 0x80 = 128.
Proof.
  intros Hc. rewrite bit7_div.
  assert (c / 128 = 1) as -> by (symmetry; apply Z.div_unique with (r := c - 128); lia).
  reflexivity.
Qed.

(** The upper nibble of any value is a multiple of 16 below 256. *)
Lemma high_nibble (x : Z) : Z.land x 0xF0 = 16 * ((x / 16) mod 16).
Proof.
  replace 0xF0 with (Z.shiftl (Z.ones 4) 4) by reflexivity.
  rewrite land_shiftl_mask by lia.
  rewrite Z.land_ones, Z.shiftr_div_pow2, Z.shiftl_mul_pow2 by lia.
  change (2 ^ 4) with 16. lia.
Qed.

Lemma high_nibble_range (x : Z) : 0 <= Z.land x 0xF0 <= 240.
Proof.
  rewrite high_nibble.
  pose proof (Z.mod_pos_bound (x / 16) 16). lia.
Qed.

Lemma high_nibble_low_clear (x : Z) : Z.land (Z.land x 0xF0) 0x0F = 0.
Proof.
  rewrite <- Z.land_assoc. change (Z.land 0xF0 0x0F) with 0.
  apply Z.land_0_r.
Qed.

(** For a byte, the upper nibble is found by comparisons. *)
Lemma high_nibble_byte (x f : Z) :
  0 <= f < 16 -> 16 * f <= x < 16 * f + 16 -> Z.land x 0xF0 = 16 * f.
Proof.
  intros Hf Hx. rewrite high_nibble.
  assert (x / 16 = f) as -> by (symmetry; apply Z.div_unique with (r := x - 16 * f); lia).
  rewrite Z.mod_small by lia. reflexivity.
Qed.

(** A family byte or'ed with a channel number: the two nibbles side by side. *)
Lemma lor_family_channel (f ch : Z) :
  0 <= f < 16 -> 0 <= ch < 16 -> Z.lor (16 * f) ch = 16 * f + ch.
Proof.
  intros Hf Hch.
  enough (Z.land (16 * f) ch = 0) as H0
    by (pose proof (Z.add_lor_land (16 * f) ch); lia).
  replace (16 * f) with (Z.shiftl f 4) by (rewrite Z.shiftl_mul_pow2; lia).
  apply Z.bits_inj'. intros k Hk.
  rewrite Z.land_spec, Z.shiftl_spec, Z.bits_0 by lia.
  destruct (Z.ltb_spec k 4) as [Hlt | Hge].
  - rewrite Z.testbit_neg_r by lia. reflexivity.
  - replace (Z.testbit ch k) with false; [apply andb_false_r |].
    symmetry. apply Z.bits_above_log2; [lia |].
    destruct (Z.eq_dec ch 0) as [-> | Hnz]; [simpl; lia |].
    apply Z.log2_lt_pow2; [lia |].
    apply Z.lt_le_trans with (2 ^ 4); [simpl; lia |].
    apply Z.pow_le_mono_r; lia.
Qed.

(** Clearing bit 7 and keeping a byte leaves the low seven bits. *)
Lemma mask7 (x : Z) : u8 (Z.land x (Z.lnot CHANNEL_VOICE_MASK)) = x mod 128.
Proof.
  unfold u8. change 256 with (2 ^ 8). rewrite <- Z.land_ones by lia.
  rewrite <- Z.land_assoc.
  change (Z.land (Z.lnot CHANNEL_VOICE_MASK) (Z.ones 8)) with (Z.ones 7).
  rewrite Z.land_ones by lia. reflexivity.
Qed.

Lemma mask7' (x : Z) : u8 (Z.land (Z.lnot CHANNEL_VOICE_MASK) x) = x mod 128.
Proof. rewrite Z.land_comm. apply mask7. Qed.

(** ** The transmit side *)

Ltac unfold_monad :=
  unfold serial_port_write, serial_port_read, set_running_status_tx,
    set_running_status_rx, set_3rd_byte_flag, set_midi_c2, set_midi_c3,
    set_serial_port, invoke, modify, get, bind, ret, exec.

Ltac unfold_views :=
  unfold wrote, called, incoming, on_this, upd_tx, upd_rx, upd_port, sent, unread.

Ltac send_cases :=
  let w := fresh "w" in
  intros w; unfold_monad; unfold_views; unfold status_byte; cbn;
  match goal with
  | |- context [?a =? ?b] => destruct (Z.eqb_spec a b)
  end;
  (split; intros; [ | ]; try contradiction; cbn; rewrite ?u8_u8; reflexivity).

Lemma NoteON_send (channel key velocity : Z) :
  running_status_send (NoteON channel key velocity)
    (status_byte C_NOTE_ON channel) [u8 key; u8 velocity].
Proof. unfold NoteON. send_cases. Qed.

Lemma NoteOFF_send (channel key velocity : Z) :
  running_status_send (NoteOFF channel key velocity)
    (status_byte C_NOTE_OFF channel) [u8 key; u8 velocity].
Proof. unfold NoteOFF. send_cases. Qed.

Lemma ControlChange_send (channel controller val : Z) :
  running_status_send (ControlChange channel controller val)
    (status_byte C_CONTROL_CHANGE channel) [u8 controller; u8 val].
Proof. unfold ControlChange. send_cases. Qed.

Lemma ChannelAfterTouch_send (channel val : Z) :
  running_status_send (ChannelAfterTouch channel val)
    (status_byte C_CHANNEL_AFTERTOUCH channel) [u8 val].
Proof. unfold ChannelAfterTouch. send_cases. Qed.

Lemma PitchWheel_send (channel val : Z) :
  running_status_send (PitchWheel channel val)
    (status_byte C_PITCH_WHEEL channel)
    [u16 val mod 128; (u16 val / 128) mod 128].
Proof.
  rewrite <- (mask7 (u16 val)).
  replace (u16 val / 128) with (Z.shiftr (u16 val) 7)
    by (rewrite Z.shiftr_div_pow2 by lia; reflexivity).
  rewrite <- (mask7 (Z.shiftr (u16 val) 7)).
  unfold PitchWheel. send_cases.
Qed.

(** Two sends with one status byte in a row: the second is always elided. *)
Lemma running_status_send_seq (op1 op2 : M unit) (status : Z) (d1 d2 : list Z) :
  running_status_send op1 status d1 ->
  running_status_send op2 status d2 ->
  running_status_send (op1 ;; op2) status (d1 ++ d2).
Proof.
  intros H1 H2 w. unfold bind.
  destruct (H1 w) as [Heq Hne].
  split; intros Htx.
  - rewrite (Heq Htx).
    destruct (H2 (wrote d1 w)) as [Heq2 _].
    rewrite Heq2 by exact Htx.
    unfold_views; cbn. rewrite <- app_assoc. reflexivity.
  - rewrite (Hne Htx).
    destruct (H2 (on_this (upd_tx status) (wrote (status :: d1) w))) as [Heq2 _].
    rewrite Heq2 by reflexivity.
    unfold_views; cbn. rewrite <- app_assoc. reflexivity.
Qed.

Lemma ModWheel_send (channel val : Z) :
  running_status_send (ModWheel channel val)
    (status_byte C_CONTROL_CHANGE channel)
    [CTL_LSB_MODWHEEL; u16 val mod 128;
     CTL_MSB_MODWHEEL; (u16 val / 128) mod 128].
Proof.
  unfold ModWheel.
  change [CTL_LSB_MODWHEEL; u16 val mod 128;
          CTL_MSB_MODWHEEL; (u16 val / 128) mod 128]
    with ([u8 CTL_LSB_MODWHEEL; u16 val mod 128]
          ++ [u8 CTL_MSB_MODWHEEL; (u16 val / 128) mod 128]).
  apply running_status_send_seq.
  - rewrite <- (mask7' (u16 val)). apply ControlChange_send.
  - replace (u16 val / 128) with (Z.shiftr (u16 val) 7)
      by (rewrite Z.shiftr_div_pow2 by lia; reflexivity).
    rewrite <- (mask7' (Z.shiftr (u16 val) 7)). apply ControlChange_send.
Qed.

Lemma ModWheel_msb_send (channel val : Z) :
  running_status_send (ModWheel_msb channel val)
    (status_byte C_CONTROL_CHANGE channel)
    [CTL_MSB_MODWHEEL; u8 val mod 128].
Proof.
  unfold ModWheel_msb.
  change CTL_MSB_MODWHEEL with (u8 CTL_MSB_MODWHEEL) at 2.
  rewrite <- (mask7' (u8 val)). apply ControlChange_send.
Qed.

Lemma ModWheel_int_send (channel val : Z) :
  running_status_send (ModWheel_int channel val)
    (status_byte C_CONTROL_CHANGE channel)
    [CTL_MSB_MODWHEEL; u8 val mod 128].
Proof.
  unfold ModWheel_int.
  pose proof (ModWheel_msb_send channel (u8 val)) as H.
  rewrite u8_u8 in H. exact H.
Qed.

(** What a running-status send puts on the line. *)
Lemma produced_send (op : M unit) (status : Z) (data : list Z) (w : world) :
  running_status_send op status data ->
  produced op w =
    if global_running_status_tx (this w) =? status then data
    else status :: data.
Proof.
  intros H. destruct (H w) as [Heq Hne]. unfold produced, exec.
  destruct (Z.eqb_spec (global_running_status_tx (this w)) status) as [E | E].
  - rewrite (Heq E). unfold_views; cbn.
    rewrite skipn_app, skipn_all, Nat.sub_diag. reflexivity.
  - rewrite (Hne E). unfold_views; cbn.
    rewrite skipn_app, skipn_all, Nat.sub_diag. reflexivity.
Qed.

Lemma status_byte_channel (f channel : Z) :
  0 <= f < 16 -> 0 <= channel <= 15 ->
  status_byte (16 * f) channel = 16 * f + channel.
Proof.
  intros Hf Hch. unfold status_byte.
  rewrite (u8_small channel) by lia.
  rewrite lor_family_channel by lia.
  apply u8_small. lia.
Qed.

Lemma PitchWheel_signed_send (channel val : Z) :
  running_status_send (PitchWheel_signed channel val)
    (status_byte C_PITCH_WHEEL channel)
    [u16 (val + 0x2000) mod 128; (u16 (val + 0x2000) / 128) mod 128].
Proof.
  unfold PitchWheel_signed.
  pose proof (PitchWheel_send channel (u16 (val + 0x2000))) as H.
  rewrite (u16_small (u16 (val + 0x2000))) in H
    by (unfold u16; apply Z.mod_pos_bound; lia).
  exact H.
Qed.

(** C1: every channel-voice send applies running-status elision: with its
    status byte (family or'ed with the channel) equal to the last one sent,
    only the data bytes are written; otherwise the status byte and the data
    bytes are written and the status byte becomes the last one sent.  This
    holds of NoteON, NoteOFF, ControlChange, ChannelAfterTouch, both
    PitchWheel entries and the three ModWheel entries; the 14-bit ModWheel,
    two control changes with one status byte, elides the second always.  So
    NoteON(0, 60, 100) after a different status writes 0x90 0x3C 0x64, and
    NoteON(0, 62, 90) right after it writes 0x3E 0x5A only. *)
Theorem running_status_elision :
  (forall channel key velocity,
     running_status_send (NoteON channel key velocity)
       (status_byte C_NOTE_ON channel) [u8 key; u8 velocity]) /\
  (forall channel key velocity,
     running_status_send (NoteOFF channel key velocity)
       (status_byte C_NOTE_OFF channel) [u8 key; u8 velocity]) /\
  (forall channel controller val,
     running_status_send (ControlChange channel controller val)
       (status_byte C_CONTROL_CHANGE channel) [u8 controller; u8 val]) /\
  (forall channel val,
     running_status_send (ChannelAfterTouch channel val)
       (status_byte C_CHANNEL_AFTERTOUCH channel) [u8 val]) /\
  (forall channel val,
     running_status_send (PitchWheel channel val)
       (status_byte C_PITCH_WHEEL channel)
       [u16 val mod 128; (u16 val / 128) mod 128]) /\
  (forall channel val,
     running_status_send (PitchWheel_signed channel val)
       (status_byte C_PITCH_WHEEL channel)
       [u16 (val + 0x2000) mod 128; (u16 (val + 0x2000) / 128) mod 128]) /\
  (forall channel val,
     running_status_send (ModWheel channel val)
       (status_byte C_CONTROL_CHANGE channel)
       [CTL_LSB_MODWHEEL; u16 val mod 128;
        CTL_MSB_MODWHEEL; (u16 val / 128) mod 128]) /\
  (forall channel val,
     running_status_send (ModWheel_msb channel val)
       (status_byte C_CONTROL_CHANGE channel)
       [CTL_MSB_MODWHEEL; u8 val mod 128]) /\
  (forall channel val,
     running_status_send (ModWheel_int channel val)
       (status_byte C_CONTROL_CHANGE channel)
       [CTL_MSB_MODWHEEL; u8 val mod 128]) /\
  (forall w : world,
     global_running_status_tx (this w) <> 0x90 ->
     produced (NoteON 0 60 100) w = [0x90; 0x3C; 0x64] /\
     produced (NoteON 0 62 90) (exec (NoteON 0 60 100) w) = [0x3E; 0x5A]).
Proof.
  split; [exact NoteON_send |].
  split; [exact NoteOFF_send |].
  split; [exact ControlChange_send |].
  split; [exact ChannelAfterTouch_send |].
  split; [exact PitchWheel_send |].
  split; [exact PitchWheel_signed_send |].
  split; [exact ModWheel_send |].
  split; [exact ModWheel_msb_send |].
  split; [exact ModWheel_int_send |].
  intros w Htx. split.
  - rewrite (produced_send _ _ _ w (NoteON_send 0 60 100)).
    change (status_byte C_NOTE_ON 0) with 0x90.
    destruct (Z.eqb_spec (global_running_status_tx (this w)) 0x90);
      [contradiction | reflexivity].
  - rewrite (produced_send _ _ _ _ (NoteON_send 0 62 90)).
    destruct (NoteON_send 0 60 100 w) as [_ Hne].
    unfold exec. rewrite Hne by exact Htx. reflexivity.
Qed.

Lemma running_status_elision_witness :
  produced (NoteON 0 60 100) (construct 0) = [0x90; 0x3C; 0x64] /\
  produced (NoteON 0 62 90) (exec (NoteON 0 60 100) (construct 0))
    = [0x3E; 0x5A].
Proof.
  apply (proj2 (proj2 (proj2 (proj2 (proj2 (proj2 (proj2 (proj2 (proj2
           running_status_elision))))))))).
  simpl. discriminate.
Defined.


(** The member functions of the transmit side preserve the receive side. *)
Lemma send_keeps_receive_side (op : send_op) (w : world) :
  let o := this w in
  let o' := this (exec (send op) w) in
  global_running_status_rx o' = global_running_status_rx o /\
  global_3rd_byte_flag o' = global_3rd_byte_flag o /\
  global_midi_c2 o' = global_midi_c2 o /\
  global_midi_c3 o' = global_midi_c3 o /\
  global_midi_state o' = global_midi_state o /\
  rx_fifo (serial_port o') = rx_fifo (serial_port o) /\
  invoked (exec (send op) w) = invoked w.
Proof.
  destruct w as [[[fifo line] tx rx flag c2 c3 st] log].
  destruct op; cbn -[Z.eqb Z.lor Z.land Z.shiftr u8 u16 Z.lnot];
    unfold NoteON, NoteOFF, ControlChange, ChannelAfterTouch, ModWheel,
      ModWheel_int, ModWheel_msb, PitchWheel_signed, PitchWheel, TimingClock, Start,
      Continue, Stop, Active_Sensing, Reset, ControlChange;
    unfold_monad; cbn -[Z.eqb Z.lor Z.land Z.shiftr u8 u16 Z.lnot];
    repeat match goal with
    | |- context [if ?a =? ?b then _ else _] =>
        destruct (a =? b); cbn -[Z.eqb Z.lor Z.land Z.shiftr u8 u16 Z.lnot]
    end;
    repeat split.
Qed.

Lemma rss_writes (op : M unit) (status : Z) (data : list Z) :
  running_status_send op status data -> writes op status data.
Proof. intros H w. apply produced_send. exact H. Qed.

Lemma bit7_clear_mod128 (x : Z) : bit7_clear (x mod 128).
Proof.
  unfold bit7_clear, CHANNEL_VOICE_MASK. apply bit7_data.
  pose proof (Z.mod_pos_bound x 128). lia.
Qed.

(** C4: the mask to 7 bits is applied by the wheel operations only.  Both
    PitchWheel entries and the three ModWheel entries send data bytes with
    bit 7 clear whatever their argument, the 8-bit ModWheel by masking the
    plain 8-bit value it is given; NoteON, NoteOFF, ControlChange and
    ChannelAfterTouch have no mask and send the low 8 bits of their data
    arguments.  So NoteON(0, 200, 255) writes 0x90 0xC8 0xFF, two bytes with
    bit 7 set in data position, and the controller value 200 goes out as
    0xC8 through ControlChange and as 0x48 through the 8-bit ModWheel. *)
Theorem plain_sends_write_unmasked_data :
  (forall channel val,
     writes (PitchWheel channel val) (status_byte C_PITCH_WHEEL channel)
       [u16 val mod 128; (u16 val / 128) mod 128] /\
     writes (PitchWheel_signed channel val) (status_byte C_PITCH_WHEEL channel)
       [u16 (val + 0x2000) mod 128; (u16 (val + 0x2000) / 128) mod 128] /\
     writes (ModWheel channel val) (status_byte C_CONTROL_CHANGE channel)
       [CTL_LSB_MODWHEEL; u16 val mod 128;
        CTL_MSB_MODWHEEL; (u16 val / 128) mod 128] /\
     writes (ModWheel_msb channel val) (status_byte C_CONTROL_CHANGE channel)
       [CTL_MSB_MODWHEEL; u8 val mod 128] /\
     writes (ModWheel_int channel val) (status_byte C_CONTROL_CHANGE channel)
       [CTL_MSB_MODWHEEL; u8 val mod 128] /\
     Forall bit7_clear
       [u16 val mod 128; (u16 val / 128) mod 128;
        u16 (val + 0x2000) mod 128; (u16 (val + 0x2000) / 128) mod 128;
        CTL_LSB_MODWHEEL; CTL_MSB_MODWHEEL; u8 val mod 128]) /\
  (forall channel key velocity,
     writes (NoteON channel key velocity) (status_byte C_NOTE_ON channel)
       [u8 key; u8 velocity] /\
     writes (NoteOFF channel key velocity) (status_byte C_NOTE_OFF channel)
       [u8 key; u8 velocity] /\
     writes (ControlChange channel key velocity)
       (status_byte C_CONTROL_CHANGE channel) [u8 key; u8 velocity] /\
     writes (ChannelAfterTouch channel velocity)
       (status_byte C_CHANNEL_AFTERTOUCH channel) [u8 velocity]) /\
  produced (NoteON 0 200 255) (construct 0) = [0x90; 0xC8; 0xFF] /\
  Z.land 0xC8 CHANNEL_VOICE_MASK = 0x80 /\
  Z.land 0xFF CHANNEL_VOICE_MASK = 0x80 /\
  produced (NoteOFF 0 200 255) (construct 0) = [0x80; 0xC8; 0xFF] /\
  produced (ChannelAfterTouch 0 200) (construct 0) = [0xD0; 0xC8] /\
  produced (ControlChange 0 CTL_MSB_MODWHEEL 200) (construct 0)
    = [0xB0; 0x01; 0xC8] /\
  produced (ModWheel_msb 0 200) (construct 0) = [0xB0; 0x01; 0x48].
Proof.
  split.
  - intros channel val.
    split; [apply rss_writes, PitchWheel_send |].
    split; [apply rss_writes, PitchWheel_signed_send |].
    split; [apply rss_writes, ModWheel_send |].
    split; [apply rss_writes, ModWheel_msb_send |].
    split; [apply rss_writes, ModWheel_int_send |].
    repeat (apply Forall_cons || apply Forall_nil);
      try apply bit7_clear_mod128; reflexivity.
  - split.
    + intros channel key velocity.
      split; [apply rss_writes, NoteON_send |].
      split; [apply rss_writes, NoteOFF_send |].
      split; [apply rss_writes, ControlChange_send |].
      apply rss_writes, ChannelAfterTouch_send.
    + repeat split.
Qed.

(** C6: for a signed input in -8192..8191 the signed pitch-wheel entry adds
    8192 and hands the result, a value in 0..16383, to the unsigned one,
    which sends its low seven bits and then its high seven bits.  The input
    -8192 gives the data bytes 0x00 0x00 and the input 0 gives 0x00 0x40. *)
Theorem PitchWheel_signed_recentres :
  (forall channel val,
     -8192 <= val <= 8191 ->
     PitchWheel_signed channel val = PitchWheel channel (val + 8192) /\
     0 <= val + 8192 <= 16383 /\
     running_status_send (PitchWheel_signed channel val)
       (status_byte C_PITCH_WHEEL channel)
       [(val + 8192) mod 128; (val + 8192) / 128]) /\
  (forall channel,
     running_status_send (PitchWheel_signed channel (-8192))
       (status_byte C_PITCH_WHEEL channel) [0x00; 0x00] /\
     running_status_send (PitchWheel_signed channel 0)
       (status_byte C_PITCH_WHEEL channel) [0x00; 0x40]).
Proof.
  split.
  - intros channel val Hval.
    assert (Hu : u16 (val + 0x2000) = val + 8192) by (apply u16_small; lia).
    split; [| split].
    + unfold PitchWheel_signed. cbv zeta. rewrite Hu. reflexivity.
    + lia.
    + pose proof (PitchWheel_signed_send channel val) as H.
      rewrite Hu in H.
      rewrite (Z.mod_small ((val + 8192) / 128)) in H; [exact H |].
      split.
      * apply Z.div_pos; lia.
      * apply Z.div_lt_upper_bound; lia.
  - intros channel. split.
    + exact (PitchWheel_signed_send channel (-8192)).
    + exact (PitchWheel_signed_send channel 0).
Qed.

Lemma PitchWheel_signed_recentres_witness :
  PitchWheel_signed 0 (-1) = PitchWheel 0 (-1 + 8192) /\
  0 <= -1 + 8192 <= 16383 /\
  running_status_send (PitchWheel_signed 0 (-1))
    (status_byte C_PITCH_WHEEL 0) [(-1 + 8192) mod 128; (-1 + 8192) / 128].
Proof.
  apply (proj1 PitchWheel_signed_recentres). lia.
Defined.

(** C7: the constructor sets the receive running status, the pending-byte
    flag, both buffer bytes and the state tag, and leaves the transmit
    running status as its storage had it; an object whose storage held 0x90
    there sends its first NoteON on channel 0 without a status byte. *)
Theorem construct_leaves_transmit_status :
  (forall storage_tx,
     let o := this (construct storage_tx) in
     global_running_status_tx o = u8 storage_tx /\
     global_running_status_rx o = 0 /\
     global_3rd_byte_flag o = 0 /\
     global_midi_c2 o = 0 /\
     global_midi_c3 o = 0 /\
     global_midi_state o = RESET) /\
  produced (NoteON 0 60 100) (construct 0x90) = [0x3C; 0x64] /\
  produced (NoteON 0 60 100) (construct 0) = [0x90; 0x3C; 0x64].
Proof.
  split; [intros storage_tx; cbn; repeat split |].
  split; reflexivity.
Qed.

(** ** The receive side *)

Ltac unfold_consts :=
  unfold CHANNEL_VOICE_MASK, SYSTEM_TUNE_REQUEST, C_NOTE_ON, C_NOTE_OFF,
    C_POLYPHONIC_AFTERTOUCH, C_PITCH_WHEEL, C_CONTROL_CHANGE,
    C_PROGRAM_CHANGE, C_CHANNEL_AFTERTOUCH, is_data in *.

(** Settle the comparisons that linear arithmetic decides. *)
Ltac decide_tests :=
  repeat match goal with
  | |- context [?a =? ?b] =>
      first [ rewrite (proj2 (Z.eqb_eq a b)) by lia
            | rewrite (proj2 (Z.eqb_neq a b)) by lia ]
  | |- context [?a <? ?b] =>
      first [ rewrite (proj2 (Z.ltb_lt a b)) by lia
            | rewrite (proj2 (Z.ltb_ge a b)) by lia ]
  | |- context [?a <=? ?b] =>
      first [ rewrite (proj2 (Z.leb_le a b)) by lia
            | rewrite (proj2 (Z.leb_gt a b)) by lia ]
  end.

Ltac simpl_bytes :=
  rewrite ?u8_u8;
  repeat match goal with
  | |- context [u8 (Z.land ?x 240)] =>
      rewrite (u8_small (Z.land x 240))
        by (pose proof (high_nibble_range x); lia)
  | |- context [u8 ?c] => rewrite (u8_small c) by lia
  | |- context [Z.land ?c 128] =>
      first [ rewrite (bit7_data c) by lia | rewrite (bit7_status c) by lia ]
  end.

(** Run the parser on a world whose next bytes and members are known well
    enough for every test on the way to be settled. *)
Ltac run_parser :=
  unfold feed, poll, ReceiveParser; unfold_monad; unfold_views; unfold_consts;
  cbn in *;
  repeat (progress (simpl_bytes; decide_tests; cbn)).

Ltac open_world w :=
  destruct w as [[[?fifo ?line] ?tx ?rx ?flag ?c2 ?c3 ?st] ?log].

Lemma ReceiveParser_nothing (w : world) :
  unread w = [] -> ReceiveParser w = (tt, w).
Proof.
  open_world w. unfold unread. cbn. intros ->. reflexivity.
Qed.

Lemma ReceiveParser_realtime (w : world) (c : Z) (rest : list Z) :
  0xF8 <= c <= 0xFF ->
  ReceiveParser (incoming (c :: rest) w)
  = (tt, called (realtime_handler_delegate c) (incoming rest w)).
Proof.
  intros Hc. open_world w. run_parser. reflexivity.
Qed.

Lemma ReceiveParser_status (w : world) (c : Z) (rest : list Z) :
  0x80 <= c < 0xF8 ->
  ReceiveParser (incoming (c :: rest) w)
  = (tt, on_this (upd_rx c 0
                    (if c =? SYSTEM_TUNE_REQUEST then c
                     else global_midi_c2 (this w))
                    (global_midi_c3 (this w)))
           (incoming rest w)).
Proof.
  intros Hc. open_world w. run_parser.
  destruct (Z.eqb_spec c 246); cbn; simpl_bytes; reflexivity.
Qed.

(** A complete note-on message, status byte included, from any state. *)
Lemma feed_note_on_message (w : world) (status d1 d2 : Z) :
  0x90 <= status <= 0x9F -> is_data d1 -> is_data d2 ->
  invoked (feed [status; d1; d2] w) =
    invoked w ++
    [if d2 =? 0 then midi_note_off_delegate d1 0
     else midi_note_on_delegate d1 d2].
Proof.
  intros Hst H1 H2. open_world w.
  assert (Z.land status 240 = 144) by (apply (high_nibble_byte status 9); lia).
  run_parser.
  destruct (Z.eqb_spec d2 0); subst; reflexivity.
Qed.

(** C2, as amended: for note and velocity in 0..127 and channel in 0..15,
    when the encoder's last-sent status is not this note-on status byte, so
    that NoteON writes the status byte too, feeding what NoteON wrote to a
    decoder without receive running status invokes exactly one delegate:
    note-on with the note and the velocity for a velocity other than 0,
    note-off with the note and 0 for velocity 0. *)
Theorem NoteON_roundtrip (e d : world) (channel key velocity : Z) :
  0 <= channel <= 15 -> is_data key -> is_data velocity ->
  global_running_status_tx (this e) <> status_byte C_NOTE_ON channel ->
  global_running_status_rx (this d) = 0 ->
  invoked (feed (produced (NoteON channel key velocity) e) d) =
    invoked d ++
    [if velocity =? 0 then midi_note_off_delegate key 0
     else midi_note_on_delegate key velocity].
Proof.
  intros Hch Hk Hv Htx _.
  rewrite (produced_send _ _ _ e (NoteON_send channel key velocity)).
  destruct (Z.eqb_spec (global_running_status_tx (this e))
              (status_byte C_NOTE_ON channel)) as [E | _];
    [contradiction |].
  unfold is_data in *.
  rewrite (u8_small key), (u8_small velocity) by lia.
  change C_NOTE_ON with (16 * 9).
  rewrite status_byte_channel by lia.
  apply feed_note_on_message; unfold is_data; lia.
Qed.

Lemma NoteON_roundtrip_witness :
  invoked (feed (produced (NoteON 0 60 100) (construct 0)) (construct 0)) =
    invoked (construct 0) ++
    [if 100 =? 0 then midi_note_off_delegate 60 0
     else midi_note_on_delegate 60 100].
Proof.
  apply NoteON_roundtrip; unfold is_data; simpl; try lia; try reflexivity.
  discriminate.
Defined.

(** C2, as stated, fails: an encoder that has just sent a note on channel 0
    elides the status byte of the next one, and a decoder without running
    status drops the two data bytes. *)
Lemma NoteON_roundtrip_fails_when_elided :
  let e := exec (NoteON 0 1 1) (construct 0) in
  let d := construct 0 in
  produced (NoteON 0 60 100) e = [60; 100] /\
  invoked (feed (produced (NoteON 0 60 100) e) d) = [] /\
  ~ (forall (e d : world) (channel key velocity : Z),
       0 <= channel <= 15 -> is_data key -> is_data velocity ->
       global_running_status_rx (this d) = 0 ->
       invoked (feed (produced (NoteON channel key velocity) e) d) =
         invoked d ++
         [if velocity =? 0 then midi_note_off_delegate key 0
          else midi_note_on_delegate key velocity]).
Proof.
  cbv zeta. split; [reflexivity |]. split; [reflexivity |].
  intros H.
  specialize (H (exec (NoteON 0 1 1) (construct 0)) (construct 0) 0 60 100).
  assert (Hfalse : @nil delegate_call = [midi_note_on_delegate 60 100]).
  { apply H; unfold is_data; try lia. reflexivity. }
  discriminate Hfalse.
Qed.

(** C3: the second data byte of a message under a note-on running status
    invokes note-off with the first byte and 0 when it is 0, and note-on
    with the first and the second byte otherwise; the bytes 0x90 0x3C 0x00
    invoke note-off(60, 0) and nothing else. *)
Theorem note_on_velocity_zero_is_note_off :
  (forall (w : world) (c : Z) (rest : list Z),
     global_3rd_byte_flag (this w) = 1 ->
     Z.land (global_running_status_rx (this w)) 0xF0 = C_NOTE_ON ->
     is_data c ->
     invoked (exec ReceiveParser (incoming (c :: rest) w)) =
       invoked w ++
       [if c =? 0 then midi_note_off_delegate (global_midi_c2 (this w)) 0
        else midi_note_on_delegate (global_midi_c2 (this w)) c]) /\
  (forall (w : world) (status d1 d2 : Z),
     0x90 <= status <= 0x9F -> is_data d1 -> is_data d2 ->
     invoked (feed [status; d1; d2] w) =
       invoked w ++
       [if d2 =? 0 then midi_note_off_delegate d1 0
        else midi_note_on_delegate d1 d2]) /\
  (forall w : world,
     invoked (feed [0x90; 0x3C; 0x00] w) =
       invoked w ++ [midi_note_off_delegate 60 0]).
Proof.
  split; [| split].
  - intros w c rest Hflag Hrx Hc. open_world w. run_parser.
    destruct (Z.eqb_spec c 0); subst; reflexivity.
  - exact feed_note_on_message.
  - intros w.
    apply (feed_note_on_message w 0x90 0x3C 0x00); unfold is_data; lia.
Qed.

Lemma note_on_velocity_zero_is_note_off_witness :
  invoked (feed [0x9F; 0x3C; 0x00] (construct 0)) =
    invoked (construct 0) ++
    [if 0 =? 0 then midi_note_off_delegate 0x3C 0
     else midi_note_on_delegate 0x3C 0].
Proof.
  apply (proj1 (proj2 note_on_velocity_zero_is_note_off));
    unfold is_data; lia.
Defined.

(** C5: a byte from 0xF8 up invokes the realtime delegate with that byte at
    once and leaves every member as it was; so in the sequence note-on
    status, data byte, realtime byte, data byte the realtime delegate is
    invoked at the third byte and the note is delivered at the fourth. *)
Theorem realtime_leaves_pending_message :
  (forall (w : world) (c : Z) (rest : list Z),
     0xF8 <= c <= 0xFF ->
     ReceiveParser (incoming (c :: rest) w)
     = (tt, called (realtime_handler_delegate c) (incoming rest w))) /\
  (forall (w : world) (status d1 rt d2 : Z),
     0x90 <= status <= 0x9F -> is_data d1 -> 0xF8 <= rt <= 0xFF ->
     is_data d2 ->
     invoked (exec (poll 2) (incoming [status; d1; rt; d2] w)) = invoked w /\
     invoked (exec (poll 3) (incoming [status; d1; rt; d2] w)) =
       invoked w ++ [realtime_handler_delegate rt] /\
     invoked (exec (poll 4) (incoming [status; d1; rt; d2] w)) =
       invoked w ++
       [realtime_handler_delegate rt;
        if d2 =? 0 then midi_note_off_delegate d1 0
        else midi_note_on_delegate d1 d2]).
Proof.
  split; [exact ReceiveParser_realtime |].
  intros w status d1 rt d2 Hst H1 Hrt H2. open_world w.
  assert (Z.land status 240 = 144) by (apply (high_nibble_byte status 9); lia).
  split; [| split].
  - run_parser. reflexivity.
  - run_parser. reflexivity.
  - run_parser.
    destruct (Z.eqb_spec d2 0); subst; cbn; rewrite <- app_assoc; reflexivity.
Qed.

Lemma realtime_leaves_pending_message_witness :
  ReceiveParser (incoming [0xF8; 0x64] (feed [0x90; 0x3C] (construct 0)))
  = (tt, called (realtime_handler_delegate 0xF8)
           (incoming [0x64] (feed [0x90; 0x3C] (construct 0)))).
Proof.
  apply (proj1 realtime_leaves_pending_message). lia.
Defined.

(** C8: with no byte to read, the receive operation returns at once: no
    member changes and no delegate is invoked. *)
Theorem no_byte_no_effect (w : world) :
  unread w = [] -> ReceiveParser w = (tt, w).
Proof. apply ReceiveParser_nothing. Qed.

Lemma no_byte_no_effect_witness :
  ReceiveParser (feed [0x90; 0x3C] (construct 0))
  = (tt, feed [0x90; 0x3C] (construct 0)).
Proof.
  apply no_byte_no_effect. reflexivity.
Defined.

(** C9: under the receive running status 0xF2, a data byte that comes with
    the pending-byte flag clear sets the running status to 0, sets the flag
    and is stored; the data byte after it is taken as a second byte, which
    clears the flag, and no delegate is invoked by either. *)
Theorem song_position_first_byte_arms_flag
    (w : world) (c d : Z) (rest : list Z) :
  global_running_status_rx (this w) = 0xF2 ->
  global_3rd_byte_flag (this w) = 0 ->
  is_data c -> is_data d ->
  ReceiveParser (incoming (c :: d :: rest) w)
  = (tt, on_this (upd_rx 0 1 c (global_midi_c3 (this w)))
           (incoming (d :: rest) w)) /\
  exec (poll 2) (incoming (c :: d :: rest) w)
  = on_this (upd_rx 0 0 c d) (incoming rest w).
Proof.
  intros Hrx Hflag Hc Hd. open_world w. cbn in Hrx, Hflag. subst.
  split; run_parser; reflexivity.
Qed.

Lemma song_position_first_byte_arms_flag_witness :
  ReceiveParser (incoming [0x01; 0x02] (feed [0xF2] (construct 0)))
  = (tt, on_this (upd_rx 0 1 0x01 0) (incoming [0x02] (feed [0xF2] (construct 0))))
  /\
  exec (poll 2) (incoming [0x01; 0x02] (feed [0xF2] (construct 0)))
  = on_this (upd_rx 0 0 0x01 0x02) (incoming [] (feed [0xF2] (construct 0))).
Proof.
  apply (song_position_first_byte_arms_flag (feed [0xF2] (construct 0)));
    unfold is_data; try reflexivity; lia.
Defined.

(** ** What holds of the receive side in every reachable world *)

Lemma ReceiveParser_keeps_rx_inv (w : world) :
  rx_inv (this w) -> rx_inv (this (exec ReceiveParser w)).
Proof.
  open_world w. destruct fifo as [| z rest]; [trivial |].
  unfold rx_inv. cbn. intros [Hrx Hflag].
  pose proof (u8_range z) as Hz.
  pose proof (high_nibble rx) as Hn.
  unfold ReceiveParser; unfold_monad; unfold_consts; cbn.
  rewrite ?u8_u8. generalize dependent (u8 z). intros c Hc.
  destruct (Z.ltb_spec c 128) as [Hdata | Hstatus].
  - rewrite (bit7_data c) by lia. cbn.
    destruct (Z.eqb_spec flag 1) as [-> | Hf]; cbn.
    + rewrite (u8_small (Z.land rx 240))
        by (pose proof (high_nibble_range rx); lia).
      repeat match goal with
      | |- context [if ?a =? ?b then _ else _] =>
          destruct (Z.eqb_spec a b); cbn
      end;
      (split; [ rewrite Hn; Z.div_mod_to_equations; lia | left; reflexivity ]).
    + repeat match goal with
      | |- context [if ?a =? ?b then _ else _] =>
          destruct (Z.eqb_spec a b); cbn
      | |- context [if ?a <? ?b then _ else _] =>
          destruct (Z.ltb_spec a b); cbn
      | |- context [if ?a <=? ?b then _ else _] =>
          destruct (Z.leb_spec a b); cbn
      | |- context [if (?a =? ?b) || _ then _ else _] =>
          destruct (Z.eqb_spec a b); cbn
      end;
      rewrite ?(u8_small c) by lia; lia.
  - rewrite (bit7_status c) by lia. cbn.
    destruct (Z.leb_spec 248 c); cbn; [lia |].
    destruct (Z.eqb_spec c 246); cbn; lia.
Qed.

Lemma reachable_rx_inv (w : world) : reachable w -> rx_inv (this w).
Proof.
  induction 1 as [storage_tx | w bytes _ IH | w op _ IH | w _ IH].
  - unfold rx_inv. cbn. lia.
  - exact IH.
  - destruct (send_keeps_receive_side op w) as (Hrx & Hflag & _).
    unfold rx_inv in *. cbv zeta in *. rewrite Hrx, Hflag. exact IH.
  - apply ReceiveParser_keeps_rx_inv. exact IH.
Qed.

(** The running status a pending second byte can meet, by its family. *)
Lemma pending_family (rx : Z) :
  rx = 0 \/ 0x80 <= rx < 0xC0 \/ 0xE0 <= rx < 0xF0 ->
  Z.land rx 0xF0 = 0 \/
  (Z.land rx 0xF0 = C_NOTE_OFF \/ Z.land rx 0xF0 = C_NOTE_ON \/
   Z.land rx 0xF0 = C_POLYPHONIC_AFTERTOUCH \/
   Z.land rx 0xF0 = C_CONTROL_CHANGE \/ Z.land rx 0xF0 = C_PITCH_WHEEL).
Proof.
  unfold_consts. intros [-> | [H | H]].
  - left. reflexivity.
  - right.
    destruct (Z.ltb_spec rx 0x90);
      [left; apply (high_nibble_byte rx 8); lia |].
    destruct (Z.ltb_spec rx 0xA0);
      [right; left; apply (high_nibble_byte rx 9); lia |].
    destruct (Z.ltb_spec rx 0xB0);
      [right; right; left; apply (high_nibble_byte rx 10); lia |].
    right; right; right; left. apply (high_nibble_byte rx 11); lia.
  - right. right; right; right; right. apply (high_nibble_byte rx 14); lia.
Qed.

(** The three steps the continuation is made of. *)
Lemma ReceiveParser_second_byte (w : world) (c : Z) (rest : list Z) :
  global_3rd_byte_flag (this w) = 1 -> is_data c ->
  exists log,
    exec ReceiveParser (incoming (c :: rest) w)
    = mkWorld
        (this (on_this
                 (upd_rx (Z.land (global_running_status_rx (this w)) 0xF0) 0
                    (global_midi_c2 (this w)) c)
                 (incoming rest w)))
        log.
Proof.
  intros Hflag Hc. open_world w. cbn in Hflag. subst flag.
  unfold ReceiveParser; unfold_monad; unfold_views; unfold_consts; cbn.
  simpl_bytes. cbn.
  repeat match goal with
  | |- context [if ?a =? ?b then _ else _] => destruct (a =? b); cbn
  end;
  simpl_bytes; eexists; reflexivity.
Qed.

Lemma ReceiveParser_first_of_two (w : world) (c : Z) (rest : list Z) :
  global_3rd_byte_flag (this w) = 0 ->
  In (global_running_status_rx (this w))
     [C_NOTE_OFF; C_NOTE_ON; C_POLYPHONIC_AFTERTOUCH;
      C_CONTROL_CHANGE; C_PITCH_WHEEL] ->
  is_data c ->
  ReceiveParser (incoming (c :: rest) w)
  = (tt, on_this (upd_rx (global_running_status_rx (this w)) 1 c
                    (global_midi_c3 (this w)))
           (incoming rest w)).
Proof.
  intros Hflag Hrx Hc. open_world w. cbn in Hflag, Hrx. subst flag.
  destruct Hrx as [<- | [<- | [<- | [<- | [<- | []]]]]];
    run_parser; reflexivity.
Qed.

Lemma ReceiveParser_stray_data (w : world) (c : Z) (rest : list Z) :
  global_3rd_byte_flag (this w) = 0 ->
  global_running_status_rx (this w) = 0 ->
  is_data c ->
  ReceiveParser (incoming (c :: rest) w) = (tt, incoming rest w).
Proof.
  intros Hflag Hrx Hc. open_world w. cbn in Hflag, Hrx. subst.
  run_parser. reflexivity.
Qed.

(** C10, as amended: in every reachable world, a call that takes a data byte
    as the second byte of a message leaves the receive running status with
    its upper nibble only and the pending-byte flag 0.  That nibble is one of
    the two-data-byte channel-voice families, and then the next data byte is
    stored as the first byte of a new message under the same running status
    with the flag set and no delegate invoked; or it is 0, as after the 0xF2
    case, and then the next data byte is dropped. *)
Theorem running_status_continuation
    (w : world) (c d : Z) (rest : list Z) :
  reachable w ->
  global_3rd_byte_flag (this w) = 1 ->
  is_data c -> is_data d ->
  let w1 := exec ReceiveParser (incoming (c :: d :: rest) w) in
  let w2 := exec ReceiveParser w1 in
  global_running_status_rx (this w1)
    = Z.land (global_running_status_rx (this w)) 0xF0 /\
  Z.land (global_running_status_rx (this w1)) 0x0F = 0 /\
  global_3rd_byte_flag (this w1) = 0 /\
  ((In (global_running_status_rx (this w1))
       [C_NOTE_OFF; C_NOTE_ON; C_POLYPHONIC_AFTERTOUCH;
        C_CONTROL_CHANGE; C_PITCH_WHEEL] /\
    w2 = on_this (upd_rx (global_running_status_rx (this w1)) 1 d
                    (global_midi_c3 (this w1)))
           (incoming rest w1))
   \/
   (global_running_status_rx (this w1) = 0 /\ w2 = incoming rest w1)).
Proof.
  intros Hreach Hflag Hc Hd.
  destruct (reachable_rx_inv w Hreach) as [_ Hpending].
  rewrite Hflag in Hpending.
  destruct Hpending as [Hpending | [_ Hpending]]; [discriminate |].
  apply pending_family in Hpending.
  cbv zeta.
  destruct (ReceiveParser_second_byte w c (d :: rest) Hflag Hc) as [log ->].
  set (rx1 := Z.land (global_running_status_rx (this w)) 0xF0) in *.
  cbn [this on_this upd_rx global_running_status_rx global_3rd_byte_flag
       global_midi_c3].
  split; [reflexivity |].
  split; [apply high_nibble_low_clear |].
  split; [reflexivity |].
  match goal with
  | |- context [exec ReceiveParser ?w1] =>
      change w1 with (incoming (d :: rest) w1)
  end.
  destruct Hpending as [H0 | H].
  - right. split; [exact H0 |].
    unfold exec. rewrite ReceiveParser_stray_data; auto.
  - left.
    assert (Hin : In rx1 [C_NOTE_OFF; C_NOTE_ON; C_POLYPHONIC_AFTERTOUCH;
                          C_CONTROL_CHANGE; C_PITCH_WHEEL])
      by (cbn [In]; intuition auto).
    split; [exact Hin |].
    unfold exec. rewrite ReceiveParser_first_of_two; auto.
Qed.

Lemma reachable_poll (n : nat) (w : world) :
  reachable w -> reachable (exec (poll n) w).
Proof.
  revert w. induction n as [| n IH]; intros w Hw; [exact Hw |].
  replace (exec (poll (S n)) w) with (exec (poll n) (exec ReceiveParser w)).
  - apply IH. apply reach_receive. exact Hw.
  - unfold exec. cbn [poll]. unfold bind.
    destruct (ReceiveParser w) as [[] w']. reflexivity.
Qed.

Lemma reachable_feed (bytes : list Z) (storage_tx : Z) :
  reachable (feed bytes (construct storage_tx)).
Proof.
  unfold feed. apply reachable_poll.
  apply (reach_arrival (construct storage_tx) bytes).
  apply reach_construct.
Qed.


Lemma running_status_continuation_witness :
  let w := feed [0x90; 0x3C] (construct 0) in
  let w1 := exec ReceiveParser (incoming [0x64; 0x3E; 0x5A] w) in
  let w2 := exec ReceiveParser w1 in
  global_running_status_rx (this w1)
    = Z.land (global_running_status_rx (this w)) 0xF0 /\
  Z.land (global_running_status_rx (this w1)) 0x0F = 0 /\
  global_3rd_byte_flag (this w1) = 0 /\
  ((In (global_running_status_rx (this w1))
       [C_NOTE_OFF; C_NOTE_ON; C_POLYPHONIC_AFTERTOUCH;
        C_CONTROL_CHANGE; C_PITCH_WHEEL] /\
    w2 = on_this (upd_rx (global_running_status_rx (this w1)) 1 0x3E
                    (global_midi_c3 (this w1)))
           (incoming [0x5A] w1))
   \/
   (global_running_status_rx (this w1) = 0 /\ w2 = incoming [0x5A] w1)).
Proof.
  pose proof (running_status_continuation
                (feed [0x90; 0x3C] (construct 0)) 0x64 0x3E [0x5A]
                (reachable_feed _ _)) as H.
  specialize (H eq_refl).
  assert (H1 : is_data 0x64) by (unfold is_data; lia).
  assert (H2 : is_data 0x3E) by (unfold is_data; lia).
  exact (H H1 H2).
Defined.

(** C10, as stated, fails: after the bytes 0xF2 0x01 the byte 0x02 is taken
    as a second data byte and leaves the running status 0, so the data byte
    0x03 after it is dropped instead of starting a message. *)
Lemma continuation_fails_after_song_position :
  let w := feed [0xF2; 0x01] (construct 0) in
  let w1 := exec ReceiveParser (incoming [0x02; 0x03] w) in
  let w2 := exec ReceiveParser w1 in
  (reachable w /\ global_3rd_byte_flag (this w) = 1 /\
   global_running_status_rx (this w1) = 0 /\
   global_3rd_byte_flag (this w1) = 0 /\
   w2 = incoming [] w1 /\ global_midi_c2 (this w2) = 0x01) /\
  ~ (forall (w : world) (c d : Z) (rest : list Z),
       reachable w ->
       global_3rd_byte_flag (this w) = 1 ->
       is_data c -> is_data d ->
       let w1 := exec ReceiveParser (incoming (c :: d :: rest) w) in
       let w2 := exec ReceiveParser w1 in
       global_running_status_rx (this w1)
         = Z.land (global_running_status_rx (this w)) 0xF0 /\
       global_3rd_byte_flag (this w1) = 0 /\
       global_midi_c2 (this w2) = d).
Proof.
  cbv zeta. split.
  - split; [apply reachable_feed |].
    split; [vm_compute; reflexivity |].
    split; [vm_compute; reflexivity |].
    split; [vm_compute; reflexivity |].
    split; vm_compute; reflexivity.
  - intros H.
    assert (Hc2 := H (feed [0xF2; 0x01] (construct 0)) 0x02 0x03 []
                   (reachable_feed _ _) eq_refl).
    assert (H1 : is_data 0x02) by (unfold is_data; lia).
    assert (H2 : is_data 0x03) by (unfold is_data; lia).
    specialize (Hc2 H1 H2).
    destruct Hc2 as (_ & _ & Hc2).
    vm_compute in Hc2. discriminate Hc2.
Qed.

(** * Further properties *)

(** ** The parser and the port *)

(** Case analysis on every test the parser makes on the way. *)
Ltac parser_cases :=
  repeat match goal with
  | |- context [if negb ?b then _ else _] => destruct b eqn:?; cbn
  | |- context [if ?b || _ then _ else _] => destruct b eqn:?; cbn
  | |- context [if ?b then _ else _] => destruct b eqn:?; cbn
  end.

(** What is queued behind the byte read plays no part in the call. *)
Lemma ReceiveParser_rest (w : world) (c : Z) (rest : list Z) :
  exec ReceiveParser (incoming (c :: rest) w)
  = incoming rest (exec ReceiveParser (incoming [c] w)).
Proof.
  open_world w.
  unfold ReceiveParser; unfold_monad; unfold_views; cbn.
  parser_cases; reflexivity.
Qed.

Lemma exec_poll_S (n : nat) (w : world) :
  exec (poll (S n)) w = exec (poll n) (exec ReceiveParser w).
Proof.
  unfold exec. cbn [poll]. unfold bind.
  destruct (ReceiveParser w) as [[] w']. reflexivity.
Qed.

Lemma incoming_incoming (a b : list Z) (w : world) :
  incoming a (incoming b w) = incoming a w.
Proof. reflexivity. Qed.

Lemma feed_nil (w : world) : feed [] w = incoming [] w.
Proof. reflexivity. Qed.

Lemma feed_one (c : Z) (w : world) :
  feed [c] w = exec ReceiveParser (incoming [c] w).
Proof.
  unfold feed. cbn [length]. rewrite exec_poll_S. reflexivity.
Qed.

Lemma feed_cons (c : Z) (rest : list Z) (w : world) :
  feed (c :: rest) w = feed rest (feed [c] w).
Proof.
  rewrite feed_one. unfold feed. cbn [length].
  rewrite exec_poll_S, ReceiveParser_rest. reflexivity.
Qed.

Lemma feed_app (a b : list Z) (w : world) :
  feed (a ++ b) w = feed b (feed a w).
Proof.
  revert w. induction a as [| c a IH]; intros w.
  - rewrite feed_nil. reflexivity.
  - cbn [app]. rewrite feed_cons, IH, <- feed_cons. reflexivity.
Qed.

(** One call: what it reads, what it leaves alone, what it invokes. *)
Lemma ReceiveParser_footprint (w : world) :
  let w' := exec ReceiveParser w in
  unread w' = tl (unread w) /\
  sent w' = sent w /\
  global_running_status_tx (this w') = global_running_status_tx (this w) /\
  global_midi_state (this w') = global_midi_state (this w) /\
  exists calls,
    invoked w' = invoked w ++ calls /\
    (length calls <= length (firstn 1 (unread w)))%nat.
Proof.
  open_world w. destruct fifo as [| c rest].
  - cbn. repeat split. exists []. rewrite app_nil_r. split; [reflexivity | cbn; lia].
  - unfold ReceiveParser; unfold_monad; unfold_views; cbn.
    parser_cases;
      (repeat split;
       first [ eexists; split; [reflexivity | cbn; lia]
             | exists []; rewrite app_nil_r; split; [reflexivity | cbn; lia] ]).
Qed.

Lemma ReceiveParser_same_pending (w1 w2 : world) (c : Z) :
  same_pending (this w1) (this w2) ->
  same_pending (this (feed [c] w1)) (this (feed [c] w2)) /\
  exists calls,
    invoked (feed [c] w1) = invoked w1 ++ calls /\
    invoked (feed [c] w2) = invoked w2 ++ calls.
Proof.
  rewrite !feed_one.
  destruct w1 as [[[fifo1 line1] tx1 rx1 flag1 c21 c31 st1] log1].
  destruct w2 as [[[fifo2 line2] tx2 rx2 flag2 c22 c32 st2] log2].
  unfold same_pending. cbn. intros (<- & <- & Hc2).
  unfold ReceiveParser; unfold_monad; unfold_views; cbn.
  destruct (Z.eqb_spec flag1 1) as [Hflag | Hflag].
  - rewrite <- (Hc2 Hflag).
    parser_cases;
      (split;
       [ cbn; repeat split; intros; congruence
       | first [ eexists; split; reflexivity
               | exists []; rewrite !app_nil_r; split; reflexivity ] ]).
  - pose proof (proj2 (Z.eqb_neq _ _) Hflag) as Htest.
    parser_cases; try (exfalso; congruence);
      (split;
       [ cbn; repeat split; intros; congruence
       | first [ eexists; split; reflexivity
               | exists []; rewrite !app_nil_r; split; reflexivity ] ]).
Qed.

Lemma skipn_length_app {A} (l k : list A) : skipn (length l) (l ++ k) = k.
Proof.
  rewrite skipn_app, skipn_all, Nat.sub_diag. reflexivity.
Qed.

(** The parser's effect is a function of the object and the byte: the log is
    only ever appended to.  Realtime bytes, and only they, make realtime
    calls, and they leave the members alone. *)
Lemma feed_one_log (o : SerialMidi) (c : Z) :
  exists o' calls,
    (forall log, feed [c] (mkWorld o log) = mkWorld o' (log ++ calls)) /\
    (if u8 c <? 0xF8 then filter is_realtime_call calls = []
     else calls = [realtime_handler_delegate (u8 c)] /\
          o' = upd_port (mkSerial [] (tx_line (serial_port o))) o).
Proof.
  destruct o as [[fifo line] tx rx flag c2 c3 st].
  setoid_rewrite feed_one.
  unfold ReceiveParser; unfold_monad; unfold_views; unfold_consts; cbn.
  pose proof (u8_range c) as Hc.
  destruct (Z.ltb_spec (u8 c) 128) as [Hd | Hs].
  - rewrite (bit7_data (u8 c)) by lia. cbn.
    rewrite (proj2 (Z.ltb_lt (u8 c) 248)) by lia.
    parser_cases;
      (eexists; eexists; split;
       [ intros log;
         first [ reflexivity | rewrite app_nil_r; reflexivity ]
       | reflexivity ]).
  - rewrite (bit7_status (u8 c)) by lia. cbn.
    destruct (Z.leb_spec 248 (u8 c)) as [Hrt | Hst]; cbn.
    + rewrite (proj2 (Z.ltb_ge (u8 c) 248)) by lia.
      eexists; eexists; split; [intros log; reflexivity |].
      split; reflexivity.
    + rewrite (proj2 (Z.ltb_lt (u8 c) 248)) by lia.
      parser_cases;
        (eexists; eexists; split;
         [ intros log;
           first [ reflexivity | rewrite app_nil_r; reflexivity ]
         | reflexivity ]).
Qed.

Lemma feed_log (o : SerialMidi) (bytes : list Z) :
  exists o' calls,
    forall log, feed bytes (mkWorld o log) = mkWorld o' (log ++ calls).
Proof.
  revert o. induction bytes as [| c rest IH]; intros o.
  - exists (upd_port (mkSerial [] (tx_line (serial_port o))) o), [].
    intros log. rewrite feed_nil, app_nil_r. reflexivity.
  - destruct (feed_one_log o c) as (o1 & calls1 & H1 & _).
    destruct (IH o1) as (o2 & calls2 & H2).
    exists o2, (calls1 ++ calls2). intros log.
    rewrite feed_cons, H1, H2, app_assoc. reflexivity.
Qed.

Lemma invoked_feed (bytes : list Z) (w : world) :
  invoked (feed bytes w) = invoked w ++ delegated bytes w.
Proof.
  unfold delegated. destruct w as [o log].
  destruct (feed_log o bytes) as (o' & calls & H).
  rewrite H. cbn [invoked]. rewrite skipn_length_app. reflexivity.
Qed.

Lemma feed_any_log (o : SerialMidi) (bytes : list Z) (log1 log2 : list delegate_call) :
  this (feed bytes (mkWorld o log1)) = this (feed bytes (mkWorld o log2)) /\
  delegated bytes (mkWorld o log1) = delegated bytes (mkWorld o log2).
Proof.
  unfold delegated.
  destruct (feed_log o bytes) as (o' & calls & H).
  rewrite !H. cbn [this invoked]. rewrite !skipn_length_app.
  split; reflexivity.
Qed.

Lemma delegated_app (a b : list Z) (w : world) :
  delegated (a ++ b) w = delegated a w ++ delegated b (feed a w).
Proof.
  unfold delegated at 1.
  rewrite feed_app, invoked_feed, invoked_feed, <- app_assoc.
  apply skipn_length_app.
Qed.

Lemma delegated_cons (c : Z) (rest : list Z) (w : world) :
  delegated (c :: rest) w = delegated [c] w ++ delegated rest (feed [c] w).
Proof. apply (delegated_app [c] rest). Qed.

Lemma delegated_nil (w : world) : delegated [] w = [].
Proof.
  unfold delegated. rewrite feed_nil. cbn.
  rewrite skipn_all. reflexivity.
Qed.

Lemma feed_same_pending (bytes : list Z) (w1 w2 : world) :
  same_pending (this w1) (this w2) ->
  same_pending (this (feed bytes w1)) (this (feed bytes w2)) /\
  delegated bytes w1 = delegated bytes w2.
Proof.
  revert w1 w2. induction bytes as [| c rest IH]; intros w1 w2 Hs.
  - rewrite !delegated_nil, !feed_nil. split; [exact Hs | reflexivity].
  - destruct (ReceiveParser_same_pending w1 w2 c Hs) as (Hs' & calls & E1 & E2).
    destruct (IH _ _ Hs') as (Hfinal & Hcalls).
    rewrite !(feed_cons c rest), !(delegated_cons c rest).
    split; [exact Hfinal |].
    rewrite Hcalls. f_equal.
    unfold delegated. rewrite E1, E2, !skipn_length_app. reflexivity.
Qed.

(** X1: a status byte below the realtime range resynchronises the parser:
    the delegate calls made from that byte on are the same whatever state
    the parser was in. *)
Theorem status_byte_resynchronises
    (w1 w2 : world) (status : Z) (bytes : list Z) :
  0x80 <= status < 0xF8 ->
  delegated (status :: bytes) w1 = delegated (status :: bytes) w2.
Proof.
  intros Hst.
  assert (Hone : forall w,
            feed [status] w
            = on_this (upd_rx status 0
                         (if status =? SYSTEM_TUNE_REQUEST then status
                          else global_midi_c2 (this w))
                         (global_midi_c3 (this w)))
                (incoming [] w)).
  { intros w. rewrite feed_one. unfold exec.
    rewrite ReceiveParser_status by exact Hst. reflexivity. }
  rewrite !(delegated_cons status bytes).
  assert (Hnone : forall w, delegated [status] w = []).
  { intros w. unfold delegated. rewrite Hone. cbn.
    apply skipn_all. }
  rewrite !Hnone. cbn [app].
  apply feed_same_pending.
  rewrite !Hone. unfold same_pending. cbn.
  repeat split. intros H; discriminate H.
Qed.

Lemma status_byte_resynchronises_witness :
  delegated (0xB0 :: [0x07; 0x7F]) (feed [0x90; 0x3C] (construct 0))
  = delegated (0xB0 :: [0x07; 0x7F]) (construct 0).
Proof.
  apply status_byte_resynchronises. lia.
Defined.

Lemma filter_none_negb {A} (p : A -> bool) (l : list A) :
  filter p l = [] -> filter (fun x => negb (p x)) l = l.
Proof.
  induction l as [| a l IH]; cbn; [reflexivity |].
  destruct (p a); cbn; [discriminate |].
  intros H. rewrite IH by exact H. reflexivity.
Qed.

(** X2: realtime bytes are transparent wherever they come in the stream:
    taking them out changes neither the members the parser ends with nor the
    other delegate calls, and each of them makes one realtime call, in
    order. *)
Theorem realtime_bytes_transparent (bytes : list Z) (w : world) :
  let others := filter (fun b => u8 b <? 0xF8) bytes in
  this (feed bytes w) = this (feed others w) /\
  filter (fun c => negb (is_realtime_call c)) (delegated bytes w)
    = delegated others w /\
  filter is_realtime_call (delegated bytes w)
    = map (fun b => realtime_handler_delegate (u8 b))
        (filter (fun b => negb (u8 b <? 0xF8)) bytes).
Proof.
  cbv zeta. revert w. induction bytes as [| c rest IH]; intros w.
  - cbn [filter map]. rewrite delegated_nil. repeat split.
  - rewrite (feed_cons c rest), (delegated_cons c rest), !filter_app.
    destruct w as [o log].
    destruct (feed_one_log o c) as (o1 & calls1 & H1 & Hc).
    assert (Hd : delegated [c] (mkWorld o log) = calls1)
      by (unfold delegated; rewrite H1; apply skipn_length_app).
    rewrite Hd, H1.
    cbn [filter]. destruct (u8 c <? 0xF8) eqn:Hrt; cbn [negb map].
    + rewrite (feed_cons c), (delegated_cons c), Hd, H1.
      destruct (IH (mkWorld o1 (log ++ calls1))) as (IH1 & IH2 & IH3).
      rewrite IH1, IH2, IH3, Hc, (filter_none_negb _ _ Hc).
      repeat split.
    + destruct Hc as [-> ->].
      destruct (IH (mkWorld (upd_port (mkSerial [] (tx_line (serial_port o))) o)
                     (log ++ [realtime_handler_delegate (u8 c)])))
        as (IH1 & IH2 & IH3).
      rewrite IH1, IH2, IH3. cbn [filter is_realtime_call negb app].
      destruct (feed_any_log
                  (upd_port (mkSerial [] (tx_line (serial_port o))) o)
                  (filter (fun b => u8 b <? 0xF8) rest)
                  (log ++ [realtime_handler_delegate (u8 c)]) log)
        as (E1 & E2).
      rewrite E1, E2. repeat split.
Qed.

(** ** Polling *)

Lemma poll_effects (n : nat) (w : world) :
  let w' := exec (poll n) w in
  unread w' = skipn n (unread w) /\
  sent w' = sent w /\
  global_running_status_tx (this w') = global_running_status_tx (this w) /\
  global_midi_state (this w') = global_midi_state (this w) /\
  exists calls,
    invoked w' = invoked w ++ calls /\
    (length calls <= Nat.min n (length (unread w)))%nat.
Proof.
  cbv zeta. revert w. induction n as [| n IH]; intros w.
  - cbn. repeat split. exists []. rewrite app_nil_r. split; [reflexivity | cbn; lia].
  - rewrite exec_poll_S.
    destruct (ReceiveParser_footprint w) as (Hu & Hs & Ht & Hm & calls1 & Hi & Hl).
    destruct (IH (exec ReceiveParser w)) as (Hu' & Hs' & Ht' & Hm' & calls2 & Hi' & Hl').
    rewrite Hu', Hs', Ht', Hm', Hi', Hu, Hs, Ht, Hm, Hi.
    repeat split.
    + destruct (unread w); [cbn; apply skipn_nil | reflexivity].
    + exists (calls1 ++ calls2). rewrite app_assoc. split; [reflexivity |].
      rewrite length_app. rewrite Hu in Hl'.
      destruct (unread w) as [| c rest]; cbn in *; lia.
Qed.

(** X3: [n] calls in a row read the first [n] queued bytes (all of them if
    there are fewer), write nothing to the line, leave the transmit running
    status and the state tag alone, and add at most one delegate call for
    each byte read. *)
Theorem poll_footprint (n : nat) (w : world) :
  let w' := exec (poll n) w in
  unread w' = skipn n (unread w) /\
  sent w' = sent w /\
  global_running_status_tx (this w') = global_running_status_tx (this w) /\
  global_midi_state (this w') = global_midi_state (this w) /\
  exists calls,
    invoked w' = invoked w ++ calls /\
    (length calls <= Nat.min n (length (unread w)))%nat.
Proof. exact (poll_effects n w). Qed.

(** ** Data bytes that reach no delegate *)

Lemma delegated_one (c : Z) (w w' : world) :
  feed [c] w = w' -> invoked w' = invoked w -> delegated [c] w = [].
Proof.
  intros <- H. unfold delegated. rewrite H. apply skipn_all.
Qed.

Lemma silent_step (w : world) (c : Z) :
  is_data c -> silent (this w) ->
  silent (this (feed [c] w)) /\ delegated [c] w = [].
Proof.
  intros Hc Hs.
  enough (H : silent (this (feed [c] w)) /\ invoked (feed [c] w) = invoked w).
  { split; [apply H |]. apply (delegated_one c w _ eq_refl), H. }
  rewrite feed_one. open_world w. unfold silent in *. cbn in Hs.
  destruct Hs as [Hflag Hrx].
  destruct Hrx as [-> | [Hrx | [-> [Hrx | Hrx]]]].
  - destruct Hflag as [-> | ->]; run_parser; (split; [lia | reflexivity]).
  - assert (Z.land rx 240 = 160) by (apply (high_nibble_byte rx 10); lia).
    destruct Hflag as [-> | ->]; run_parser; (split; [lia | reflexivity]).
  - run_parser. split; [lia | reflexivity].
  - destruct (Z.eq_dec rx 0xF2) as [-> | Hne2];
      [run_parser; split; [lia | reflexivity] |].
    destruct (Z.eq_dec rx 0xF3) as [-> | Hne3];
      run_parser; (split; [lia | reflexivity]).
Qed.

Lemma silent_feed (ds : list Z) (w : world) :
  Forall is_data ds -> silent (this w) ->
  silent (this (feed ds w)) /\ delegated ds w = [].
Proof.
  intros Hds. revert w. induction Hds as [| c rest Hc _ IH]; intros w Hs.
  - rewrite feed_nil, delegated_nil. split; [exact Hs | reflexivity].
  - destruct (silent_step w c Hc Hs) as [Hs1 Hd1].
    destruct (IH _ Hs1) as [Hs2 Hd2].
    rewrite feed_cons, delegated_cons, Hd1, Hd2.
    split; [exact Hs2 | reflexivity].
Qed.

(** X4: after a polyphonic-aftertouch, program-change, channel-aftertouch or
    system-common status byte, no data byte reaches a delegate, however many
    follow; and without any running status data bytes are dropped too. *)
Theorem unsurfaced_messages_are_silent :
  (forall (w : world) (status : Z) (ds : list Z),
     0xA0 <= status <= 0xAF \/ 0xC0 <= status <= 0xDF \/
     0xF0 <= status <= 0xF7 ->
     Forall is_data ds ->
     delegated (status :: ds) w = []) /\
  (forall (w : world) (ds : list Z),
     global_running_status_rx (this w) = 0 ->
     global_3rd_byte_flag (this w) = 0 ->
     Forall is_data ds ->
     feed ds w = incoming [] w).
Proof.
  split.
  - intros w status ds Hst Hds.
    assert (Hone : feed [status] w
                   = on_this (upd_rx status 0
                                (if status =? SYSTEM_TUNE_REQUEST then status
                                 else global_midi_c2 (this w))
                                (global_midi_c3 (this w)))
                       (incoming [] w)).
    { rewrite feed_one. unfold exec.
      rewrite ReceiveParser_status by lia. reflexivity. }
    rewrite delegated_cons.
    rewrite (delegated_one status w _ eq_refl)
      by (rewrite Hone; reflexivity).
    apply silent_feed; [exact Hds |].
    rewrite Hone. unfold silent. cbn. lia.
  - intros w ds Hrx Hflag Hds. revert w Hrx Hflag.
    induction Hds as [| c rest Hc _ IH]; intros w Hrx Hflag.
    + apply feed_nil.
    + assert (H1 : feed [c] w = incoming [] w).
      { rewrite feed_one. unfold exec.
        rewrite ReceiveParser_stray_data by assumption. reflexivity. }
      rewrite feed_cons, H1. rewrite IH by assumption. reflexivity.
Qed.

Lemma unsurfaced_messages_are_silent_witness :
  delegated (0xC5 :: [0x10; 0x20; 0x30]) (construct 0) = [] /\
  feed [0x10; 0x20] (construct 0) = incoming [] (construct 0).
Proof.
  split.
  - apply (proj1 unsurfaced_messages_are_silent); [lia |].
    repeat constructor; unfold is_data; lia.
  - apply (proj2 unsurfaced_messages_are_silent);
      [reflexivity | reflexivity |].
    repeat constructor; unfold is_data; lia.
Defined.

(** X5: the parser keeps all it needs in the object's members and never looks
    past the byte it reads: feeding a stream in two parts, with the second
    part arriving only after the first has been parsed, ends in the same
    world and makes the same delegate calls as feeding it in one piece. *)
Theorem stream_can_be_split (a b : list Z) (w : world) :
  feed (a ++ b) w = feed b (feed a w) /\
  delegated (a ++ b) w = delegated a w ++ delegated b (feed a w) /\
  unread (feed (a ++ b) w) = [].
Proof.
  split; [apply feed_app |]. split; [apply delegated_app |].
  unfold feed.
  destruct (poll_effects (length (a ++ b)) (incoming (a ++ b) w)) as [H _].
  rewrite H. apply skipn_all.
Qed.

(** ** Running status on the receive side *)

Lemma family_range (x f : Z) :
  0 <= x <= 255 -> Z.land x 0xF0 = 16 * f -> 16 * f <= x <= 16 * f + 15.
Proof.
  intros Hx H. rewrite high_nibble in H.
  assert (Hq : 0 <= x / 16 < 16)
    by (split; [apply Z.div_pos; lia | apply Z.div_lt_upper_bound; lia]).
  rewrite Z.mod_small in H by exact Hq.
  pose proof (Z.div_mod x 16 ltac:(lia)) as Hdm.
  pose proof (Z.mod_pos_bound x 16 ltac:(lia)).
  lia.
Qed.

(** One data-byte pair under the running status of a two-data-byte family. *)
Lemma pair_step (w : world) (f d1 d2 : Z) :
  In f [8; 9; 10; 11; 14] ->
  global_3rd_byte_flag (this w) = 0 ->
  16 * f <= global_running_status_rx (this w) <= 16 * f + 15 ->
  is_data d1 -> is_data d2 ->
  feed [d1; d2] w
  = mkWorld (upd_rx (16 * f) 0 d1 d2 (this (incoming [] w)))
      (invoked w ++ message_calls (16 * f) d1 d2).
Proof.
  intros Hf Hflag Hrx H1 H2. unfold message_calls.
  destruct Hf as [<- | [<- | [<- | [<- | [<- | []]]]]];
    open_world w; cbn in Hflag, Hrx |- *; subst flag.
  - assert (Hn : Z.land rx 240 = 128) by (apply (high_nibble_byte rx 8); lia).
    run_parser. rewrite Hn. reflexivity.
  - assert (Hn : Z.land rx 240 = 144) by (apply (high_nibble_byte rx 9); lia).
    destruct (Z.eqb_spec d2 0) as [-> | Hnz]; run_parser; rewrite Hn; reflexivity.
  - assert (Hn : Z.land rx 240 = 160) by (apply (high_nibble_byte rx 10); lia).
    run_parser. rewrite Hn, app_nil_r. reflexivity.
  - assert (Hn : Z.land rx 240 = 176) by (apply (high_nibble_byte rx 11); lia).
    run_parser. rewrite Hn. reflexivity.
  - assert (Hn : Z.land rx 240 = 224) by (apply (high_nibble_byte rx 14); lia).
    run_parser. rewrite Hn. reflexivity.
Qed.

Lemma pairs_stream (w : world) (f : Z) (pairs : list (Z * Z)) :
  In f [8; 9; 10; 11; 14] ->
  global_3rd_byte_flag (this w) = 0 ->
  16 * f <= global_running_status_rx (this w) <= 16 * f + 15 ->
  Forall data_pair pairs ->
  delegated (pairs_bytes pairs) w
    = concat (map (fun p => message_calls (16 * f) (fst p) (snd p)) pairs) /\
  global_3rd_byte_flag (this (feed (pairs_bytes pairs) w)) = 0 /\
  16 * f <= global_running_status_rx (this (feed (pairs_bytes pairs) w))
         <= 16 * f + 15.
Proof.
  intros Hf Hflag Hrx Hps. revert w Hflag Hrx.
  induction Hps as [| [d1 d2] rest [H1 H2] _ IH]; intros w Hflag Hrx.
  - cbn [pairs_bytes map concat]. rewrite delegated_nil, feed_nil.
    split; [reflexivity | split; [exact Hflag | exact Hrx]].
  - cbn [pairs_bytes map concat fst snd] in *.
    change (d1 :: d2 :: pairs_bytes rest) with ([d1; d2] ++ pairs_bytes rest).
    rewrite delegated_app, feed_app.
    pose proof (pair_step w f d1 d2 Hf Hflag Hrx H1 H2) as Hstep.
    assert (Hd : delegated [d1; d2] w = message_calls (16 * f) d1 d2)
      by (unfold delegated; rewrite Hstep; apply skipn_length_app).
    rewrite Hd.
    destruct (IH (feed [d1; d2] w)) as (IH1 & IH2 & IH3).
    + rewrite Hstep. reflexivity.
    + rewrite Hstep. cbn [this upd_rx global_running_status_rx].
      cbn in Hf. lia.
    + rewrite IH1. split; [reflexivity | split; [exact IH2 | exact IH3]].
Qed.

(** X6: running status on the receive side: after one status byte of a
    two-data-byte channel-voice family, every following pair of data bytes is
    one message of that family, however many pairs follow, and from whatever
    state the parser was in. *)
Theorem running_status_on_receive
    (w : world) (status : Z) (pairs : list (Z * Z)) :
  0x80 <= status <= 0xBF \/ 0xE0 <= status <= 0xEF ->
  Forall data_pair pairs ->
  delegated (status :: pairs_bytes pairs) w
    = concat (map (fun p => message_calls (Z.land status 0xF0) (fst p) (snd p))
                pairs).
Proof.
  intros Hst Hps.
  assert (Hone : feed [status] w
                 = on_this (upd_rx status 0
                              (if status =? SYSTEM_TUNE_REQUEST then status
                               else global_midi_c2 (this w))
                              (global_midi_c3 (this w)))
                     (incoming [] w)).
  { rewrite feed_one. unfold exec.
    rewrite ReceiveParser_status by lia. reflexivity. }
  rewrite delegated_cons.
  rewrite (delegated_one status w _ eq_refl) by (rewrite Hone; reflexivity).
  cbn [app].
  assert (Hf : exists f, In f [8; 9; 10; 11; 14] /\
                         16 * f <= status <= 16 * f + 15).
  { assert (Hc : 128 <= status <= 143 \/ 144 <= status <= 159 \/
                 160 <= status <= 175 \/ 176 <= status <= 191 \/
                 224 <= status <= 239) by lia.
    destruct Hc as [H | [H | [H | [H | H]]]];
      [exists 8 | exists 9 | exists 10 | exists 11 | exists 14];
      (split; [cbn; tauto | lia]). }
  destruct Hf as (f & Hf & Hrange).
  rewrite (high_nibble_byte status f) by (cbn in Hf; lia).
  apply pairs_stream; try assumption.
  - rewrite Hone. reflexivity.
  - rewrite Hone. exact Hrange.
Qed.

Lemma running_status_on_receive_witness :
  delegated (0x93 :: pairs_bytes [(60, 100); (62, 0); (64, 90)]) (construct 0)
  = concat (map (fun p => message_calls (Z.land 0x93 0xF0) (fst p) (snd p))
              [(60, 100); (62, 0); (64, 90)]).
Proof.
  apply running_status_on_receive; [lia |].
  repeat constructor; cbn; lia.
Defined.

(** ** An encoder and the decoder that listens to it *)

Lemma exec_bind (a b : M unit) (w : world) :
  exec (a ;; b) w = exec b (exec a w).
Proof.
  unfold exec, bind. destruct (a w) as [[] w']. reflexivity.
Qed.

Lemma mod128_data (x : Z) : is_data (x mod 128).
Proof. unfold is_data. pose proof (Z.mod_pos_bound x 128). lia. Qed.

Lemma feed_status (w : world) (status : Z) :
  0x80 <= status < 0xF8 ->
  feed [status] w
  = on_this (upd_rx status 0
               (if status =? SYSTEM_TUNE_REQUEST then status
                else global_midi_c2 (this w))
               (global_midi_c3 (this w)))
      (incoming [] w).
Proof.
  intros H. rewrite feed_one. unfold exec.
  rewrite ReceiveParser_status by exact H. reflexivity.
Qed.

(** A running-status send, heard by a decoder that handles its data bytes
    under the family's running status. *)
Lemma rss_in_sync (op : M unit) (f ch : Z) (data : list Z)
    (calls : list delegate_call) :
  8 <= f <= 14 -> 0 <= ch <= 15 ->
  running_status_send op (16 * f + ch) data ->
  (forall d',
     global_3rd_byte_flag (this d') = 0 ->
     16 * f <= global_running_status_rx (this d') <= 16 * f + 15 ->
     delegated data d' = calls /\
     global_3rd_byte_flag (this (feed data d')) = 0 /\
     16 * f <= global_running_status_rx (this (feed data d')) <= 16 * f + 15) ->
  forall e d,
    in_sync e d ->
    in_sync (exec op e) (feed (produced op e) d) /\
    delegated (produced op e) d = calls.
Proof.
  intros Hf Hch Hsend Hdec e d [Hflag Hsync].
  assert (Hst : Z.land (16 * f + ch) 0xF0 = 16 * f)
    by (apply high_nibble_byte; lia).
  assert (Hafter : forall d',
            global_3rd_byte_flag (this d') = 0 ->
            16 * f <= global_running_status_rx (this d') <= 16 * f + 15 ->
            forall e', global_running_status_tx (this e') = 16 * f + ch ->
            in_sync e' (feed data d') /\ delegated data d' = calls).
  { intros d' Hfl Hr e' Htx.
    destruct (Hdec d' Hfl Hr) as (Hc & Hfl' & Hr').
    split; [| exact Hc]. split; [exact Hfl' |].
    intros _. split; [lia |].
    rewrite Htx, Hst. apply high_nibble_byte; lia. }
  rewrite (produced_send _ _ _ e Hsend).
  destruct (Hsend e) as [Heq Hne]. unfold exec.
  destruct (Z.eqb_spec (global_running_status_tx (this e)) (16 * f + ch))
    as [E | E].
  - rewrite (Heq E). cbn [snd].
    destruct Hsync as [Hr Hl]; [lia |].
    rewrite E, Hst in Hl.
    apply Hafter; [exact Hflag | apply family_range; [lia | exact Hl] | exact E].
  - rewrite (Hne E). cbn [snd].
    rewrite (feed_cons (16 * f + ch) data), (delegated_cons (16 * f + ch) data).
    rewrite (delegated_one (16 * f + ch) d _ eq_refl)
      by (rewrite feed_status by lia; reflexivity).
    cbn [app]. apply Hafter.
    + rewrite feed_status by lia. reflexivity.
    + rewrite feed_status by lia. cbn. lia.
    + reflexivity.
Qed.

Lemma pairs_heard (f : Z) (pairs : list (Z * Z)) :
  In f [8; 9; 10; 11; 14] -> Forall data_pair pairs ->
  forall d',
    global_3rd_byte_flag (this d') = 0 ->
    16 * f <= global_running_status_rx (this d') <= 16 * f + 15 ->
    delegated (pairs_bytes pairs) d'
      = concat (map (fun p => message_calls (16 * f) (fst p) (snd p)) pairs) /\
    global_3rd_byte_flag (this (feed (pairs_bytes pairs) d')) = 0 /\
    16 * f <= global_running_status_rx (this (feed (pairs_bytes pairs) d'))
           <= 16 * f + 15.
Proof.
  intros Hf Hps d' Hfl Hr. apply pairs_stream; assumption.
Qed.

(** The single data byte of a channel-aftertouch message. *)
Lemma aftertouch_heard (v : Z) :
  is_data v ->
  forall d',
    global_3rd_byte_flag (this d') = 0 ->
    16 * 13 <= global_running_status_rx (this d') <= 16 * 13 + 15 ->
    delegated [v] d' = [] /\
    global_3rd_byte_flag (this (feed [v] d')) = 0 /\
    16 * 13 <= global_running_status_rx (this (feed [v] d')) <= 16 * 13 + 15.
Proof.
  intros Hv d' Hfl Hr.
  assert (H : feed [v] d'
              = on_this (upd_rx (global_running_status_rx (this d')) 0 v
                           (global_midi_c3 (this d')))
                  (incoming [] d')).
  { rewrite feed_one. open_world d'. cbn in Hfl, Hr. subst flag.
    run_parser. reflexivity. }
  split; [apply (delegated_one v d' _ eq_refl); rewrite H; reflexivity |].
  rewrite H. cbn. split; [reflexivity | lia].
Qed.

(** A realtime send, heard. *)
Lemma realtime_in_sync (op : M unit) (b : Z) :
  0xF8 <= b <= 0xFF ->
  (forall w, op w = (tt, wrote [b] w)) ->
  forall e d,
    in_sync e d ->
    in_sync (exec op e) (feed (produced op e) d) /\
    delegated (produced op e) d = [realtime_handler_delegate b].
Proof.
  intros Hb Hop e d Hs.
  assert (Hp : produced op e = [b]).
  { unfold produced, exec. rewrite Hop. unfold_views. cbn.
    apply skipn_length_app. }
  rewrite Hp.
  assert (H : feed [b] d = called (realtime_handler_delegate b) (incoming [] d)).
  { rewrite feed_one. unfold exec.
    rewrite ReceiveParser_realtime by exact Hb. reflexivity. }
  split.
  - unfold exec. rewrite Hop, H. exact Hs.
  - unfold delegated. rewrite H. cbn. apply skipn_length_app.
Qed.

Lemma status_of (family channel f : Z) :
  family = 16 * f -> 0 <= f < 16 -> 0 <= channel <= 15 ->
  status_byte family channel = 16 * f + channel.
Proof. intros -> Hf Hch. apply status_byte_channel; assumption. Qed.

Ltac rt_range :=
  unfold RT_TIMING_CLOCK, RT_START, RT_CONTINUE, RT_STOP, RT_ACTIVE_SENSING,
    RT_RESET; lia.

Ltac data_pairs :=
  repeat (apply Forall_cons || apply Forall_nil);
  split; cbn [fst snd];
  (apply mod128_data
   || (unfold is_data, CTL_LSB_MODWHEEL, CTL_MSB_MODWHEEL; lia)).

Lemma send_step (op : send_op) (e d : world) :
  valid_call op -> in_sync e d ->
  in_sync (exec (send op) e) (feed (produced (send op) e) d) /\
  delegated (produced (send op) e) d = expected_calls op.
Proof.
  intros Hv Hs.
  destruct op as [ch k v | ch k v | ch k v | ch v | ch val | ch val | ch val
                 | ch val | ch val | | | | | | ];
    cbn [valid_call send expected_calls] in *; unfold is_data in *.
  - (* NoteON *)
    destruct Hv as (Hch & Hk & Hvel).
    pose proof (NoteON_send ch k v) as Hsend.
    rewrite (status_of C_NOTE_ON ch 9), (u8_small k), (u8_small v) in Hsend
      by (reflexivity || lia).
    apply (rss_in_sync _ 9 ch [k; v]); try lia; try assumption.
    intros d' Hfl Hr.
    apply (pairs_heard 9 [(k, v)]); try assumption; [cbn; tauto |].
    data_pairs.
  - (* NoteOFF *)
    destruct Hv as (Hch & Hk & Hvel).
    pose proof (NoteOFF_send ch k v) as Hsend.
    rewrite (status_of C_NOTE_OFF ch 8), (u8_small k), (u8_small v) in Hsend
      by (reflexivity || lia).
    apply (rss_in_sync _ 8 ch [k; v]); try lia; try assumption.
    intros d' Hfl Hr.
    apply (pairs_heard 8 [(k, v)]); try assumption; [cbn; tauto |].
    data_pairs.
  - (* ControlChange *)
    destruct Hv as (Hch & Hk & Hvel).
    pose proof (ControlChange_send ch k v) as Hsend.
    rewrite (status_of C_CONTROL_CHANGE ch 11), (u8_small k), (u8_small v)
      in Hsend by (reflexivity || lia).
    apply (rss_in_sync _ 11 ch [k; v]); try lia; try assumption.
    intros d' Hfl Hr.
    apply (pairs_heard 11 [(k, v)]); try assumption; [cbn; tauto |].
    data_pairs.
  - (* ChannelAfterTouch *)
    destruct Hv as (Hch & Hvel).
    pose proof (ChannelAfterTouch_send ch v) as Hsend.
    rewrite (status_of C_CHANNEL_AFTERTOUCH ch 13), (u8_small v) in Hsend
      by (reflexivity || lia).
    apply (rss_in_sync _ 13 ch [v]); try lia; try assumption.
    apply aftertouch_heard. unfold is_data. lia.
  - (* ModWheel, 14 bits *)
    pose proof (ModWheel_send ch val) as Hsend.
    rewrite (status_of C_CONTROL_CHANGE ch 11) in Hsend by (reflexivity || lia).
    apply (rss_in_sync _ 11 ch _ _ ltac:(lia) Hv Hsend); [| exact Hs].
    intros d' Hfl Hr.
    apply (pairs_heard 11 [(CTL_LSB_MODWHEEL, u16 val mod 128);
                           (CTL_MSB_MODWHEEL, (u16 val / 128) mod 128)]);
      try assumption; [cbn; tauto |].
    data_pairs.
  - (* ModWheel, MSB only *)
    pose proof (ModWheel_msb_send ch val) as Hsend.
    rewrite (status_of C_CONTROL_CHANGE ch 11) in Hsend by (reflexivity || lia).
    apply (rss_in_sync _ 11 ch _ _ ltac:(lia) Hv Hsend); [| exact Hs].
    intros d' Hfl Hr.
    apply (pairs_heard 11 [(CTL_MSB_MODWHEEL, u8 val mod 128)]);
      try assumption; [cbn; tauto |].
    data_pairs.
  - (* ModWheel, int *)
    pose proof (ModWheel_int_send ch val) as Hsend.
    rewrite (status_of C_CONTROL_CHANGE ch 11) in Hsend by (reflexivity || lia).
    apply (rss_in_sync _ 11 ch _ _ ltac:(lia) Hv Hsend); [| exact Hs].
    intros d' Hfl Hr.
    apply (pairs_heard 11 [(CTL_MSB_MODWHEEL, u8 val mod 128)]);
      try assumption; [cbn; tauto |].
    data_pairs.
  - (* PitchWheel *)
    pose proof (PitchWheel_send ch val) as Hsend.
    rewrite (status_of C_PITCH_WHEEL ch 14) in Hsend by (reflexivity || lia).
    apply (rss_in_sync _ 14 ch _ _ ltac:(lia) Hv Hsend); [| exact Hs].
    intros d' Hfl Hr.
    apply (pairs_heard 14 [(u16 val mod 128, (u16 val / 128) mod 128)]);
      try assumption; [cbn; tauto |].
    data_pairs.
  - (* PitchWheel, signed *)
    pose proof (PitchWheel_signed_send ch val) as Hsend.
    rewrite (status_of C_PITCH_WHEEL ch 14) in Hsend by (reflexivity || lia).
    apply (rss_in_sync _ 14 ch _ _ ltac:(lia) Hv Hsend); [| exact Hs].
    intros d' Hfl Hr.
    apply (pairs_heard 14 [(u16 (val + 0x2000) mod 128,
                            (u16 (val + 0x2000) / 128) mod 128)]);
      try assumption; [cbn; tauto |].
    data_pairs.
  - apply (realtime_in_sync _ RT_TIMING_CLOCK); [rt_range | reflexivity | exact Hs].
  - apply (realtime_in_sync _ RT_START); [rt_range | reflexivity | exact Hs].
  - apply (realtime_in_sync _ RT_CONTINUE); [rt_range | reflexivity | exact Hs].
  - apply (realtime_in_sync _ RT_STOP); [rt_range | reflexivity | exact Hs].
  - apply (realtime_in_sync _ RT_ACTIVE_SENSING); [rt_range | reflexivity | exact Hs].
  - apply (realtime_in_sync _ RT_RESET); [rt_range | reflexivity | exact Hs].
Qed.

Lemma sent_send (op : send_op) (w : world) :
  sent (exec (send op) w) = sent w ++ produced (send op) w.
Proof.
  assert (Hrss : forall m st data,
            running_status_send m st data ->
            sent (exec m w) = sent w ++ produced m w).
  { intros m st data H. rewrite (produced_send _ _ _ w H).
    destruct (H w) as [Heq Hne]. unfold exec.
    destruct (Z.eqb_spec (global_running_status_tx (this w)) st) as [E | E];
      [rewrite (Heq E) | rewrite (Hne E)]; reflexivity. }
  assert (Hrt : forall m b,
            (forall w, m w = (tt, wrote [b] w)) ->
            sent (exec m w) = sent w ++ produced m w).
  { intros m b H. unfold produced, exec. rewrite H. unfold_views. cbn.
    rewrite skipn_length_app. reflexivity. }
  destruct op; cbn [send].
  - eapply Hrss, NoteON_send.
  - eapply Hrss, NoteOFF_send.
  - eapply Hrss, ControlChange_send.
  - eapply Hrss, ChannelAfterTouch_send.
  - eapply Hrss, ModWheel_send.
  - eapply Hrss, ModWheel_msb_send.
  - eapply Hrss, ModWheel_int_send.
  - eapply Hrss, PitchWheel_send.
  - eapply Hrss, PitchWheel_signed_send.
  - apply (Hrt _ RT_TIMING_CLOCK). reflexivity.
  - apply (Hrt _ RT_START). reflexivity.
  - apply (Hrt _ RT_CONTINUE). reflexivity.
  - apply (Hrt _ RT_STOP). reflexivity.
  - apply (Hrt _ RT_ACTIVE_SENSING). reflexivity.
  - apply (Hrt _ RT_RESET). reflexivity.
Qed.

Lemma sent_send_all (ops : list send_op) (w : world) :
  exists bytes, sent (exec (send_all ops) w) = sent w ++ bytes.
Proof.
  revert w. induction ops as [| o ops IH]; intros w.
  - exists []. cbn. rewrite app_nil_r. reflexivity.
  - cbn [send_all]. rewrite exec_bind.
    destruct (IH (exec (send o) w)) as [bytes Hb].
    rewrite Hb, (sent_send o w), <- app_assoc. eexists. reflexivity.
Qed.

Lemma produced_send_all_cons (op : send_op) (rest : list send_op) (w : world) :
  produced (send_all (op :: rest)) w
  = produced (send op) w ++ produced (send_all rest) (exec (send op) w).
Proof.
  destruct (sent_send_all rest (exec (send op) w)) as [bytes Hb].
  unfold produced at 1 3. cbn [send_all]. rewrite exec_bind, Hb.
  rewrite skipn_length_app.
  rewrite (sent_send op w), <- app_assoc.
  apply skipn_length_app.
Qed.

(** X7: a decoder that listens to an encoder from a synchronised start hears
    every call: for any sequence of calls of the transmit side within the
    wire format's ranges, feeding everything the encoder wrote, elided status
    bytes and realtime bytes included, makes exactly the delegate calls the
    sequence stands for, in order, and leaves the two synchronised. *)
Theorem encoder_decoder_roundtrip (ops : list send_op) (e d : world) :
  Forall valid_call ops ->
  in_sync e d ->
  delegated (produced (send_all ops) e) d
    = concat (map expected_calls ops) /\
  in_sync (exec (send_all ops) e) (feed (produced (send_all ops) e) d).
Proof.
  intros Hops. revert e d.
  induction Hops as [| op rest Hop _ IH]; intros e d Hs.
  - assert (Hp : produced (send_all []) e = []).
    { unfold produced. cbn. apply skipn_all. }
    rewrite Hp, delegated_nil, feed_nil. split; [reflexivity | exact Hs].
  - rewrite produced_send_all_cons, delegated_app, feed_app.
    destruct (send_step op e d Hop Hs) as [Hs1 Hc1].
    destruct (IH _ _ Hs1) as [Hc2 Hs2].
    rewrite Hc1, Hc2. cbn [map concat send_all]. rewrite exec_bind.
    split; [reflexivity | exact Hs2].
Qed.

Lemma encoder_decoder_roundtrip_witness :
  delegated
    (produced (send_all [OpNoteON 0 60 100; OpTimingClock; OpNoteON 0 62 0;
                         OpPitchWheel_signed 0 0]) (construct 0))
    (construct 0)
  = concat (map expected_calls
              [OpNoteON 0 60 100; OpTimingClock; OpNoteON 0 62 0;
               OpPitchWheel_signed 0 0]) /\
  in_sync
    (exec (send_all [OpNoteON 0 60 100; OpTimingClock; OpNoteON 0 62 0;
                     OpPitchWheel_signed 0 0]) (construct 0))
    (feed (produced (send_all [OpNoteON 0 60 100; OpTimingClock;
                               OpNoteON 0 62 0; OpPitchWheel_signed 0 0])
             (construct 0))
       (construct 0)).
Proof.
  apply encoder_decoder_roundtrip.
  - repeat (apply Forall_cons || apply Forall_nil);
      cbn; unfold is_data; lia.
  - split; [reflexivity | cbn; lia].
Defined.

(** ** How sends follow one another *)

Lemma rss_result (op : M unit) (status : Z) (data : list Z) (w : world) :
  running_status_send op status data ->
  global_running_status_tx (this (exec op w)) = status.
Proof.
  intros H. destruct (H w) as [Heq Hne]. unfold exec.
  destruct (Z.eq_dec (global_running_status_tx (this w)) status) as [E | E].
  - rewrite (Heq E). exact E.
  - rewrite (Hne E). reflexivity.
Qed.

Lemma rss_after (op1 op2 : M unit) (st1 st2 : Z) (d1 d2 : list Z) (w : world) :
  running_status_send op1 st1 d1 ->
  running_status_send op2 st2 d2 ->
  produced op2 (exec op1 w) = if st1 =? st2 then d2 else st2 :: d2.
Proof.
  intros H1 H2.
  rewrite (produced_send _ _ _ _ H2), (rss_result _ _ _ w H1). reflexivity.
Qed.

(** Two operations with the same status byte and data do the same. *)
Lemma rss_same (op1 op2 : M unit) (status : Z) (data : list Z) (w : world) :
  running_status_send op1 status data ->
  running_status_send op2 status data ->
  op1 w = op2 w.
Proof.
  intros H1 H2. destruct (H1 w) as [E1 N1]. destruct (H2 w) as [E2 N2].
  destruct (Z.eq_dec (global_running_status_tx (this w)) status) as [E | E].
  - rewrite (E1 E), (E2 E). reflexivity.
  - rewrite (N1 E), (N2 E). reflexivity.
Qed.

(** X8: what a NoteON or NoteOFF writes depends on the send before it only:
    a NoteON after a NoteON on the same channel is two bytes, on another
    channel three; and a NoteOFF after a NoteON, or a NoteON after a
    NoteOFF, is always three bytes, whatever the channels: the two families
    never share a status byte. *)
Theorem note_sends_in_a_row
    (w : world) (ch1 ch2 k1 v1 k2 v2 : Z) :
  0 <= ch1 <= 15 -> 0 <= ch2 <= 15 ->
  produced (NoteON ch2 k2 v2) (exec (NoteON ch1 k1 v1) w)
    = (if ch1 =? ch2 then [] else [0x90 + ch2]) ++ [u8 k2; u8 v2] /\
  produced (NoteOFF ch2 k2 v2) (exec (NoteOFF ch1 k1 v1) w)
    = (if ch1 =? ch2 then [] else [0x80 + ch2]) ++ [u8 k2; u8 v2] /\
  produced (NoteOFF ch2 k2 v2) (exec (NoteON ch1 k1 v1) w)
    = [0x80 + ch2; u8 k2; u8 v2] /\
  produced (NoteON ch2 k2 v2) (exec (NoteOFF ch1 k1 v1) w)
    = [0x90 + ch2; u8 k2; u8 v2].
Proof.
  intros H1 H2.
  pose proof (NoteON_send ch1 k1 v1) as On1.
  pose proof (NoteON_send ch2 k2 v2) as On2.
  pose proof (NoteOFF_send ch1 k1 v1) as Off1.
  pose proof (NoteOFF_send ch2 k2 v2) as Off2.
  rewrite (status_of C_NOTE_ON ch1 9) in On1 by (reflexivity || lia).
  rewrite (status_of C_NOTE_ON ch2 9) in On2 by (reflexivity || lia).
  rewrite (status_of C_NOTE_OFF ch1 8) in Off1 by (reflexivity || lia).
  rewrite (status_of C_NOTE_OFF ch2 8) in Off2 by (reflexivity || lia).
  rewrite (rss_after _ _ _ _ _ _ w On1 On2), (rss_after _ _ _ _ _ _ w Off1 Off2),
    (rss_after _ _ _ _ _ _ w On1 Off2), (rss_after _ _ _ _ _ _ w Off1 On2).
  repeat split.
  - destruct (Z.eqb_spec ch1 ch2) as [-> | Hne].
    + rewrite Z.eqb_refl. reflexivity.
    + rewrite (proj2 (Z.eqb_neq _ _)) by lia. reflexivity.
  - destruct (Z.eqb_spec ch1 ch2) as [-> | Hne].
    + rewrite Z.eqb_refl. reflexivity.
    + rewrite (proj2 (Z.eqb_neq _ _)) by lia. reflexivity.
  - rewrite (proj2 (Z.eqb_neq _ _)) by lia. reflexivity.
  - rewrite (proj2 (Z.eqb_neq _ _)) by lia. reflexivity.
Qed.

Lemma note_sends_in_a_row_witness :
  produced (NoteON 3 62 90) (exec (NoteON 3 60 100) (construct 0))
    = (if 3 =? 3 then [] else [0x90 + 3]) ++ [u8 62; u8 90] /\
  produced (NoteOFF 3 62 90) (exec (NoteOFF 3 60 100) (construct 0))
    = (if 3 =? 3 then [] else [0x80 + 3]) ++ [u8 62; u8 90] /\
  produced (NoteOFF 3 62 90) (exec (NoteON 3 60 100) (construct 0))
    = [0x80 + 3; u8 62; u8 90] /\
  produced (NoteON 3 62 90) (exec (NoteOFF 3 60 100) (construct 0))
    = [0x90 + 3; u8 62; u8 90].
Proof.
  apply note_sends_in_a_row; lia.
Defined.

Lemma realtime_op_wrote (rt : send_op) :
  In rt realtime_ops ->
  exists b, 0xF8 <= b <= 0xFF /\ forall w, send rt w = (tt, wrote [b] w).
Proof.
  unfold realtime_ops. cbn [In].
  intros [<- | [<- | [<- | [<- | [<- | [<- | []]]]]]]; cbn [send];
    eexists; (split; [| intros w; reflexivity]); rt_range.
Qed.

(** X9: a realtime send writes its one byte and leaves the transmit running
    status as it is, so that it does not bring the status byte back: the send
    after it is elided or not exactly as if the realtime send had not been
    made. *)
Theorem realtime_send_keeps_running_status
    (rt : send_op) (op : send_op) (w : world) :
  In rt realtime_ops ->
  length (produced (send rt) w) = 1%nat /\
  Forall (fun b => 0xF8 <= b <= 0xFF) (produced (send rt) w) /\
  global_running_status_tx (this (exec (send rt) w))
    = global_running_status_tx (this w) /\
  produced (send op) (exec (send rt) w) = produced (send op) w.
Proof.
  intros Hrt. destruct (realtime_op_wrote rt Hrt) as (b & Hb & Hw).
  assert (Hp : produced (send rt) w = [b]).
  { unfold produced, exec. rewrite Hw. unfold_views. cbn.
    apply skipn_length_app. }
  rewrite Hp. unfold exec at 1 2. rewrite Hw. cbn [snd].
  split; [reflexivity |]. split; [repeat constructor; lia |].
  split; [reflexivity |].
  assert (Hrss : forall m st data,
            running_status_send m st data ->
            produced m (wrote [b] w) = produced m w).
  { intros m st data H.
    rewrite (produced_send _ _ _ _ H), (produced_send _ _ _ _ H).
    reflexivity. }
  assert (Hone : forall m c,
            (forall w0, m w0 = (tt, wrote [c] w0)) ->
            produced m (wrote [b] w) = produced m w).
  { intros m c H. unfold produced, exec. rewrite !H. unfold_views. cbn.
    rewrite !skipn_length_app. reflexivity. }
  destruct op; cbn [send].
  - eapply Hrss, NoteON_send.
  - eapply Hrss, NoteOFF_send.
  - eapply Hrss, ControlChange_send.
  - eapply Hrss, ChannelAfterTouch_send.
  - eapply Hrss, ModWheel_send.
  - eapply Hrss, ModWheel_msb_send.
  - eapply Hrss, ModWheel_int_send.
  - eapply Hrss, PitchWheel_send.
  - eapply Hrss, PitchWheel_signed_send.
  - apply (Hone _ RT_TIMING_CLOCK). reflexivity.
  - apply (Hone _ RT_START). reflexivity.
  - apply (Hone _ RT_CONTINUE). reflexivity.
  - apply (Hone _ RT_STOP). reflexivity.
  - apply (Hone _ RT_ACTIVE_SENSING). reflexivity.
  - apply (Hone _ RT_RESET). reflexivity.
Qed.

Lemma realtime_send_keeps_running_status_witness :
  length (produced (send OpTimingClock) (exec (NoteON 0 60 100) (construct 0)))
    = 1%nat /\
  Forall (fun b => 0xF8 <= b <= 0xFF)
    (produced (send OpTimingClock) (exec (NoteON 0 60 100) (construct 0))) /\
  global_running_status_tx
    (this (exec (send OpTimingClock) (exec (NoteON 0 60 100) (construct 0))))
    = global_running_status_tx (this (exec (NoteON 0 60 100) (construct 0))) /\
  produced (send (OpNoteON 0 62 90))
    (exec (send OpTimingClock) (exec (NoteON 0 60 100) (construct 0)))
    = produced (send (OpNoteON 0 62 90)) (exec (NoteON 0 60 100) (construct 0)).
Proof.
  apply realtime_send_keeps_running_status.
  unfold realtime_ops. cbn [In]. tauto.
Defined.

(** ** Arguments outside the wire format's ranges *)

Lemma lor_bit4 (ch : Z) : 0 <= ch <= 15 -> Z.lor 0x80 (ch + 16) = 0x90 + ch.
Proof.
  intros H.
  assert (Hc : ch = 0 \/ ch = 1 \/ ch = 2 \/ ch = 3 \/ ch = 4 \/ ch = 5 \/
               ch = 6 \/ ch = 7 \/ ch = 8 \/ ch = 9 \/ ch = 10 \/ ch = 11 \/
               ch = 12 \/ ch = 13 \/ ch = 14 \/ ch = 15) by lia.
  repeat (destruct Hc as [-> | Hc]; [reflexivity |]). subst. reflexivity.
Qed.

(** X10: the channel argument is or'ed into the status byte as it is, neither
    masked nor checked: a NoteOFF on "channel" 16..31 is on the wire, and in
    the remembered running status, a NoteON on that channel less 16. *)
Theorem NoteOFF_channel_overflows_into_NoteON
    (w : world) (channel key velocity : Z) :
  0 <= channel <= 15 ->
  NoteOFF (channel + 16) key velocity w = NoteON channel key velocity w.
Proof.
  intros Hch.
  apply (rss_same _ _ (status_byte C_NOTE_ON channel) [u8 key; u8 velocity]);
    [| apply NoteON_send].
  pose proof (NoteOFF_send (channel + 16) key velocity) as H.
  replace (status_byte C_NOTE_OFF (channel + 16))
    with (status_byte C_NOTE_ON channel) in H; [exact H |].
  unfold status_byte, C_NOTE_OFF.
  rewrite (u8_small (channel + 16)), lor_bit4 by lia.
  change C_NOTE_ON with (16 * 9).
  rewrite (u8_small channel), lor_family_channel by lia.
  reflexivity.
Qed.

Lemma NoteOFF_channel_overflows_into_NoteON_witness :
  NoteOFF (0 + 16) 60 0 (construct 0) = NoteON 0 60 0 (construct 0).
Proof.
  apply NoteOFF_channel_overflows_into_NoteON. lia.
Defined.

Lemma mod_16384_parts (x y : Z) :
  x mod 16384 = y mod 16384 ->
  u16 x mod 128 = u16 y mod 128 /\
  (u16 x / 128) mod 128 = (u16 y / 128) mod 128.
Proof.
  unfold u16. intros H.
  assert (Hx : forall z, (z mod 65536) mod 128 = (z mod 16384) mod 128
                      /\ ((z mod 65536) / 128) mod 128 = (z mod 16384) / 128).
  { intros z. split; Z.div_mod_to_equations; lia. }
  destruct (Hx x) as [-> ->]. destruct (Hx y) as [-> ->].
  rewrite H. split; reflexivity.
Qed.

(** X11: the wheel operations keep the low 14 bits of their value and nothing
    else, and the MSB-only mod wheel keeps the low 7 bits of its 8-bit value:
    values that agree there are sent alike.  So the signed pitch wheel at
    8192, the upper end its comment gives, sends what -8192 sends, the lowest
    value. *)
Theorem wheel_values_wrap (w : world) (channel : Z) :
  (forall v1 v2,
     v1 mod 16384 = v2 mod 16384 ->
     PitchWheel channel v1 w = PitchWheel channel v2 w /\
     PitchWheel_signed channel v1 w = PitchWheel_signed channel v2 w /\
     ModWheel channel v1 w = ModWheel channel v2 w) /\
  (forall v1 v2,
     v1 mod 128 = v2 mod 128 ->
     ModWheel_msb channel v1 w = ModWheel_msb channel v2 w) /\
  PitchWheel_signed channel 8192 w = PitchWheel_signed channel (-8192) w /\
  produced (PitchWheel_signed channel 8192) w
    = (if global_running_status_tx (this w)
          =? status_byte C_PITCH_WHEEL channel
       then [] else [status_byte C_PITCH_WHEEL channel]) ++ [0x00; 0x00].
Proof.
  assert (Hwheel : forall v1 v2,
            v1 mod 16384 = v2 mod 16384 ->
            PitchWheel channel v1 w = PitchWheel channel v2 w /\
            PitchWheel_signed channel v1 w = PitchWheel_signed channel v2 w /\
            ModWheel channel v1 w = ModWheel channel v2 w).
  { intros v1 v2 H.
    destruct (mod_16384_parts v1 v2 H) as [Hl Hm].
    assert (H' : (v1 + 0x2000) mod 16384 = (v2 + 0x2000) mod 16384)
      by (rewrite <- (Zplus_mod_idemp_l v1), H, Zplus_mod_idemp_l; reflexivity).
    destruct (mod_16384_parts _ _ H') as [Hl' Hm'].
    split; [| split].
    - pose proof (PitchWheel_send channel v1) as S1.
      rewrite Hl, Hm in S1.
      exact (rss_same _ _ _ _ w S1 (PitchWheel_send channel v2)).
    - pose proof (PitchWheel_signed_send channel v1) as S1.
      rewrite Hl', Hm' in S1.
      exact (rss_same _ _ _ _ w S1 (PitchWheel_signed_send channel v2)).
    - pose proof (ModWheel_send channel v1) as S1.
      rewrite Hl, Hm in S1.
      exact (rss_same _ _ _ _ w S1 (ModWheel_send channel v2)). }
  split; [exact Hwheel |].
  split.
  - intros v1 v2 H.
    pose proof (ModWheel_msb_send channel v1) as S1.
    assert (Hu : u8 v1 mod 128 = u8 v2 mod 128).
    { unfold u8.
      assert (Hz : forall z, (z mod 256) mod 128 = z mod 128)
        by (intros z; Z.div_mod_to_equations; lia).
      rewrite !Hz. exact H. }
    rewrite Hu in S1.
    exact (rss_same _ _ _ _ w S1 (ModWheel_msb_send channel v2)).
  - split.
    + apply Hwheel. reflexivity.
    + rewrite (produced_send _ _ _ w (PitchWheel_signed_send channel 8192)).
      destruct (global_running_status_tx (this w)
                =? status_byte C_PITCH_WHEEL channel); reflexivity.
Qed.

Lemma wheel_values_wrap_witness :
  PitchWheel 0 (16383 + 16384) (construct 0) = PitchWheel 0 16383 (construct 0) /\
  PitchWheel_signed 0 (16383 + 16384) (construct 0)
    = PitchWheel_signed 0 16383 (construct 0) /\
  ModWheel 0 (16383 + 16384) (construct 0) = ModWheel 0 16383 (construct 0).
Proof.
  apply (proj1 (wheel_values_wrap (construct 0) 0)). reflexivity.
Defined.

(** ** What the transmit side touches *)

(** X12: a call of the transmit side only appends to the line, between one
    and five bytes, and leaves the receive side alone: the receive running
    status, the pending-byte flag, the buffer bytes, the state tag, the bytes
    not yet read and the delegate log are as before. *)
Theorem send_footprint (op : send_op) (w : world) :
  let w' := exec (send op) w in
  sent w' = sent w ++ produced (send op) w /\
  (1 <= length (produced (send op) w) <= 5)%nat /\
  unread w' = unread w /\
  invoked w' = invoked w /\
  global_running_status_rx (this w') = global_running_status_rx (this w) /\
  global_3rd_byte_flag (this w') = global_3rd_byte_flag (this w) /\
  global_midi_c2 (this w') = global_midi_c2 (this w) /\
  global_midi_c3 (this w') = global_midi_c3 (this w) /\
  global_midi_state (this w') = global_midi_state (this w).
Proof.
  cbv zeta.
  destruct (send_keeps_receive_side op w) as (H1 & H2 & H3 & H4 & H5 & H6 & H7).
  split; [apply sent_send |].
  split; [| repeat split; assumption].
  assert (Hrss : forall m st data,
            running_status_send m st data ->
            (1 <= length data <= 4)%nat ->
            (1 <= length (produced m w) <= 5)%nat).
  { intros m st data H Hl. rewrite (produced_send _ _ _ w H).
    destruct (global_running_status_tx (this w) =? st); cbn [length]; lia. }
  assert (Hrt : forall m b,
            (forall w0, m w0 = (tt, wrote [b] w0)) ->
            (1 <= length (produced m w) <= 5)%nat).
  { intros m b H. unfold produced, exec. rewrite H. unfold_views. cbn.
    rewrite skipn_length_app. cbn. lia. }
  destruct op; cbn [send].
  - eapply Hrss; [apply NoteON_send | cbn; lia].
  - eapply Hrss; [apply NoteOFF_send | cbn; lia].
  - eapply Hrss; [apply ControlChange_send | cbn; lia].
  - eapply Hrss; [apply ChannelAfterTouch_send | cbn; lia].
  - eapply Hrss; [apply ModWheel_send | cbn; lia].
  - eapply Hrss; [apply ModWheel_msb_send | cbn; lia].
  - eapply Hrss; [apply ModWheel_int_send | cbn; lia].
  - eapply Hrss; [apply PitchWheel_send | cbn; lia].
  - eapply Hrss; [apply PitchWheel_signed_send | cbn; lia].
  - apply (Hrt _ RT_TIMING_CLOCK). reflexivity.
  - apply (Hrt _ RT_START). reflexivity.
  - apply (Hrt _ RT_CONTINUE). reflexivity.
  - apply (Hrt _ RT_STOP). reflexivity.
  - apply (Hrt _ RT_ACTIVE_SENSING). reflexivity.
  - apply (Hrt _ RT_RESET). reflexivity.
Qed.

(** ** What the delegates are handed *)

Ltac tests_to_props :=
  repeat match goal with
  | H : (_ =? _) = true |- _ => apply Z.eqb_eq in H
  | H : (_ =? _) = false |- _ => apply Z.eqb_neq in H
  | H : (_ <? _) = true |- _ => apply Z.ltb_lt in H
  | H : (_ <? _) = false |- _ => apply Z.ltb_ge in H
  | H : (_ <=? _) = true |- _ => apply Z.leb_le in H
  | H : (_ <=? _) = false |- _ => apply Z.leb_gt in H
  end.

Lemma ReceiveParser_calls_well_formed (w : world) :
  (global_3rd_byte_flag (this w) = 1 -> is_data (global_midi_c2 (this w))) ->
  let w' := exec ReceiveParser w in
  (global_3rd_byte_flag (this w') = 1 -> is_data (global_midi_c2 (this w'))) /\
  exists calls,
    invoked w' = invoked w ++ calls /\ Forall well_formed_call calls.
Proof.
  open_world w. destruct fifo as [| z rest].
  - cbn. intros H. split; [exact H |].
    exists []. rewrite app_nil_r. split; [reflexivity | constructor].
  - cbn. intros Hc2.
    unfold ReceiveParser; unfold_monad; unfold_consts; cbn.
    rewrite ?u8_u8. pose proof (u8_range z) as Hz.
    generalize dependent (u8 z). intros c Hc.
    destruct (Z.ltb_spec c 128) as [Hdata | Hstatus].
    + rewrite (bit7_data c) by lia. cbn.
      destruct (Z.eqb_spec flag 1) as [Hf | Hf]; cbn.
      * specialize (Hc2 Hf). unfold is_data in Hc2.
        parser_cases; tests_to_props; try (exfalso; lia);
          (split; [intros; lia |]);
          first [ exists []; rewrite app_nil_r;
                  split; [reflexivity | constructor]
                | eexists; split; [reflexivity |];
                  repeat constructor; cbn; lia ].
      * parser_cases; tests_to_props; try (exfalso; lia);
          (split; [ cbn; rewrite ?(u8_small c) by lia; intros; lia |]);
          try (exists []; rewrite app_nil_r; split; [reflexivity | constructor]).
    + rewrite (bit7_status c) by lia. cbn.
      parser_cases; tests_to_props; try (exfalso; lia);
        (split; [cbn; intros; lia |]);
        first [ exists []; rewrite app_nil_r;
                split; [reflexivity | constructor]
              | eexists; split; [reflexivity |];
                repeat constructor; cbn; lia ].
Qed.

Lemma reachable_well_formed (w : world) :
  reachable w ->
  (global_3rd_byte_flag (this w) = 1 -> is_data (global_midi_c2 (this w))) /\
  Forall well_formed_call (invoked w).
Proof.
  induction 1 as [storage_tx | w bytes _ IH | w op _ IH | w _ IH].
  - cbn. split; [intros H; discriminate H | constructor].
  - exact IH.
  - destruct (send_keeps_receive_side op w) as (_ & Hf & Hc & _ & _ & _ & Hi).
    cbv zeta in *. rewrite Hf, Hc, Hi. exact IH.
  - destruct IH as [Hc2 Hlog].
    destruct (ReceiveParser_calls_well_formed w Hc2) as (Hc2' & calls & Hi & Hw).
    split; [exact Hc2' |].
    rewrite Hi. apply Forall_app. split; assumption.
Qed.

(** X13: whatever bytes arrive and whatever is sent in between, in every
    reachable world the parser's members are consistent (the pending-byte
    flag is 0 or 1, set only under a two-data-byte family or the cleared
    status; the running status is 0 or a status byte below the realtime
    range) and every delegate call made so far had well-formed arguments:
    data bytes in 0..127, a note-on velocity other than 0, a realtime byte in
    0xF8..0xFF. *)
Theorem delegates_get_well_formed_arguments (w : world) :
  reachable w ->
  rx_inv (this w) /\ Forall well_formed_call (invoked w).
Proof.
  intros H. split.
  - apply reachable_rx_inv. exact H.
  - apply reachable_well_formed. exact H.
Qed.

Lemma delegates_get_well_formed_arguments_witness :
  rx_inv (this (feed [0x90; 0x3C; 0x00; 0xF8; 0xFF; 0x3C] (construct 7))) /\
  Forall well_formed_call
    (invoked (feed [0x90; 0x3C; 0x00; 0xF8; 0xFF; 0x3C] (construct 7))).
Proof.
  apply delegates_get_well_formed_arguments. apply reachable_feed.
Defined.

(** X14: wheel values survive the way through a listening decoder: the
    pitch-wheel delegate is called once, with two data bytes from which the
    value sent is recovered, LSB first; and the 14-bit mod wheel arrives as
    the two control changes 0x21 and 0x01 carrying the same two parts. *)
Theorem wheel_value_roundtrip (e d : world) (channel val : Z) :
  0 <= channel <= 15 -> in_sync e d ->
  (0 <= val <= 16383 ->
   exists lsb msb,
     is_data lsb /\ is_data msb /\ lsb + 128 * msb = val /\
     delegated (produced (PitchWheel channel val) e) d
       = [midi_pitchwheel_delegate lsb msb] /\
     delegated (produced (ModWheel channel val) e) d
       = [midi_control_change_delegate CTL_LSB_MODWHEEL lsb;
          midi_control_change_delegate CTL_MSB_MODWHEEL msb]) /\
  (-8192 <= val <= 8191 ->
   exists lsb msb,
     is_data lsb /\ is_data msb /\ lsb + 128 * msb - 8192 = val /\
     delegated (produced (PitchWheel_signed channel val) e) d
       = [midi_pitchwheel_delegate lsb msb]).
Proof.
  intros Hch Hs. split; intros Hval.
  - exists (val mod 128), (val / 128).
    destruct (send_step (OpPitchWheel channel val) e d Hch Hs) as [_ Hp].
    destruct (send_step (OpModWheel channel val) e d Hch Hs) as [_ Hm].
    cbn [send expected_calls] in Hp, Hm.
    rewrite (u16_small val) in Hp, Hm by lia.
    assert (Hq : 0 <= val / 128 < 128)
      by (split; [apply Z.div_pos; lia | apply Z.div_lt_upper_bound; lia]).
    rewrite (Z.mod_small (val / 128)) in Hp, Hm by exact Hq.
    split; [apply mod128_data |].
    split; [unfold is_data; lia |].
    split; [pose proof (Z.div_mod val 128 ltac:(lia)); lia |].
    split; assumption.
  - exists ((val + 8192) mod 128), ((val + 8192) / 128).
    destruct (send_step (OpPitchWheel_signed channel val) e d Hch Hs) as [_ Hp].
    cbn [send expected_calls] in Hp.
    rewrite (u16_small (val + 0x2000)) in Hp by lia.
    assert (Hq : 0 <= (val + 8192) / 128 < 128)
      by (split; [apply Z.div_pos; lia | apply Z.div_lt_upper_bound; lia]).
    rewrite (Z.mod_small ((val + 0x2000) / 128)) in Hp by exact Hq.
    split; [apply mod128_data |].
    split; [unfold is_data; lia |].
    split; [pose proof (Z.div_mod (val + 8192) 128 ltac:(lia)); lia |].
    exact Hp.
Qed.

Lemma wheel_value_roundtrip_witness :
  exists lsb msb,
    is_data lsb /\ is_data msb /\ lsb + 128 * msb - 8192 = -1 /\
    delegated (produced (PitchWheel_signed 2 (-1)) (construct 0)) (construct 0)
      = [midi_pitchwheel_delegate lsb msb].
Proof.
  assert (Hs : in_sync (construct 0) (construct 0))
    by (split; [reflexivity | cbn; lia]).
  assert (Hch : 0 <= 2 <= 15) by lia.
  apply (proj2 (wheel_value_roundtrip (construct 0) (construct 0) 2 (-1) Hch Hs)).
  lia.
Defined.

(** ** The diagnostic text *)

Module DiagnosticsFacts.
Import Stdlib.Strings.Ascii Stdlib.Strings.String Diagnostics.
Local Open Scope string_scope.

Example Text_construct :
  Text (this (construct 0x90)) = "run_tx:90,run_rx: 0,3rd_byte: 0,state: 0".
Proof. reflexivity. Qed.

Example Text_flag_set :
  Text (this (feed [0xB5; 0x07] (construct 0)))
  = "run_tx: 0,run_rx:B5,3rd_byte: 1,state: 0".
Proof. reflexivity. Qed.

Lemma byte_forall (P : Z -> bool) :
  forallb P (map Z.of_nat (seq 0 256)) = true ->
  forall v, 0 <= v <= 255 -> P v = true.
Proof.
  intros H v Hv. rewrite forallb_forall in H. apply H.
  apply in_map_iff. exists (Z.to_nat v). split; [lia |].
  apply in_seq. lia.
Qed.

Lemma fmt_2X_two_chars (v : Z) :
  0 <= v <= 255 -> exists a b, fmt_2X v = String a (String b "").
Proof.
  intros Hv.
  assert (H : two_chars (fmt_2X v) = true).
  { apply (byte_forall (fun v => two_chars (fmt_2X v))); [| exact Hv].
    vm_compute. reflexivity. }
  destruct (fmt_2X v) as [| a [| b [| c s]]]; try discriminate H.
  exists a, b. reflexivity.
Qed.

Lemma read_fmt_2X (v : Z) : 0 <= v <= 255 -> read_2X (fmt_2X v) = v.
Proof.
  intros Hv. apply Z.eqb_eq.
  apply (byte_forall (fun v => (read_2X (fmt_2X v) =? v)%Z)); [| exact Hv].
  vm_compute. reflexivity.
Qed.

Lemma state_code_byte (s : midi_state_machine) : 0 <= state_code s <= 255.
Proof. destruct s; cbn; lia. Qed.

Lemma state_code_inj (s1 s2 : midi_state_machine) :
  state_code s1 = state_code s2 -> s1 = s2.
Proof. destruct s1, s2; cbn; intros H; try discriminate H; reflexivity. Qed.

(** The text, field by field. *)
Lemma Text_fields (o : SerialMidi) :
  byte_members o ->
  exists a1 a2 b1 b2 c1 c2 d1 d2,
    fmt_2X (global_running_status_tx o) = String a1 (String a2 "") /\
    fmt_2X (global_running_status_rx o) = String b1 (String b2 "") /\
    fmt_2X (global_3rd_byte_flag o) = String c1 (String c2 "") /\
    fmt_2X (state_code (global_midi_state o)) = String d1 (String d2 "") /\
    Text o = "run_tx:" ++ String a1 (String a2 "") ++
             ",run_rx:" ++ String b1 (String b2 "") ++
             ",3rd_byte:" ++ String c1 (String c2 "") ++
             ",state:" ++ String d1 (String d2 "").
Proof.
  intros (Htx & Hrx & Hflag).
  destruct (fmt_2X_two_chars _ Htx) as (a1 & a2 & Ha).
  destruct (fmt_2X_two_chars _ Hrx) as (b1 & b2 & Hb).
  destruct (fmt_2X_two_chars _ Hflag) as (c1 & c2 & Hc).
  destruct (fmt_2X_two_chars _ (state_code_byte (global_midi_state o)))
    as (d1 & d2 & Hd).
  exists a1, a2, b1, b2, c1, c2, d1, d2.
  unfold Text. rewrite Ha, Hb, Hc, Hd.
  repeat split.
Qed.

(** X15: for an object whose members hold bytes, the diagnostic text is 40
    characters long, so the 64-byte buffer never truncates it, and it shows
    exactly the transmit and receive running status, the pending-byte flag
    and the state tag: two objects have the same text if and only if they
    agree on those four. *)
Theorem Text_snapshot (o1 o2 : SerialMidi) :
  byte_members o1 -> byte_members o2 ->
  length (Text o1) = 40%nat /\
  (Text o1 = Text o2 <->
   global_running_status_tx o1 = global_running_status_tx o2 /\
   global_running_status_rx o1 = global_running_status_rx o2 /\
   global_3rd_byte_flag o1 = global_3rd_byte_flag o2 /\
   global_midi_state o1 = global_midi_state o2).
Proof.
  intros H1 H2.
  destruct (Text_fields o1 H1) as (a1 & a2 & b1 & b2 & c1 & c2 & d1 & d2
                                    & Ha & Hb & Hc & Hd & HT1).
  destruct (Text_fields o2 H2) as (a1' & a2' & b1' & b2' & c1' & c2' & d1' & d2'
                                    & Ha' & Hb' & Hc' & Hd' & HT2).
  split; [rewrite HT1; reflexivity |].
  split.
  - rewrite HT1, HT2. cbn. intros E.
    injection E as -> -> -> -> -> -> -> ->.
    rewrite <- Ha', <- Hb', <- Hc', <- Hd' in *.
    destruct H1 as (? & ? & ?), H2 as (? & ? & ?).
    apply (f_equal read_2X) in Ha, Hb, Hc, Hd.
    rewrite !read_fmt_2X in Ha, Hb, Hc, Hd
      by (assumption || apply state_code_byte).
    repeat split; try assumption.
    apply state_code_inj. exact Hd.
  - intros (E1 & E2 & E3 & E4). unfold Text. rewrite E1, E2, E3, E4.
    reflexivity.
Qed.

Lemma Text_snapshot_witness :
  length (Text (this (construct 0x90))) = 40%nat /\
  (Text (this (construct 0x90)) = Text (this (construct 0x91)) <->
   global_running_status_tx (this (construct 0x90))
     = global_running_status_tx (this (construct 0x91)) /\
   global_running_status_rx (this (construct 0x90))
     = global_running_status_rx (this (construct 0x91)) /\
   global_3rd_byte_flag (this (construct 0x90))
     = global_3rd_byte_flag (this (construct 0x91)) /\
   global_midi_state (this (construct 0x90))
     = global_midi_state (this (construct 0x91))).
Proof.
  apply Text_snapshot; unfold byte_members; cbn; lia.
Defined.

End DiagnosticsFacts.
